(** * Expense tracker: the analysis layer of [expense_tracker.py]

    A shallow embedding of [ExpenseAnalyzer] and of the pandas operations it
    calls, followed by the properties of the analyses.

    Conventions of the model.
    - A DataFrame returned by [ExpenseDatabase.get_all_expenses] is the list
      of its rows, in row order.
    - The [amount] column (SQLite [REAL], a Python float) is an exact
      rational: sums, means and quotients are those of [Q], compared with
      [==].  Rounding to two decimals is NumPy's round-half-to-even.  The
      code computes on doubles: what it compares are the stored amounts,
      as here, but its sums and means are rounded.  [Binary64] holds that
      arithmetic, for the statements that rounding decides.
    - [groupby] lists its groups by ascending key (pandas' [sort=True]).
    - [sort_values(ascending=False)] is a stable descending sort: equal keys
      keep the order they had before the sort.
    - [pd.to_datetime] reads ISO calendar dates [YYYY-MM-DD]; on any other
      text this reader raises [ValueError].  pandas reads more forms; the
      statements on dates are on snapshots of ISO dates, and the statement
      on faults holds for whatever [pd.to_datetime] does.
    - The database file of [ExpenseDatabase] is the list of the rows of its
      table with the counter of its [AUTOINCREMENT] key; texts compare byte
      by byte, as in SQLite's default collation.
    - [select_from_list] reads its input from a list of lines and takes
      Python's [int] as a parameter. *)

From Stdlib Require Import ZArith QArith Qround Qminmax Qabs List String Ascii Bool.
From Stdlib Require Import Lia Lqa Permutation Sorted DecimalString OrdersEx.
From Stdlib Require Import PrimFloat.
From Stdlib Require Uint63 SpecFloat FloatOps.
Import ListNotations.

Local Open Scope Z_scope.
Local Open Scope Q_scope.
Local Open Scope string_scope.
Local Open Scope list_scope.

(** ** Data model *)

(** One row of the [expenses] table. *)
Record expense : Type := mkExpense {
  expense_id : Z;
  date : string;
  amount : Q;
  category : string;
  description : string;
  payment_method : string
}.

Definition DataFrame : Type := list expense.

(** [df.empty] *)
Definition empty {A : Type} (df : list A) : bool :=
  match df with [] => true | _ :: _ => false end.

(** The exception a pandas call can raise here: [pd.to_datetime] failing on
    the text at [position] of the column it was given.  The two fields are
    those of the reader of ISO dates below; what the exception of pandas
    itself holds is not stated anywhere. *)
Inductive fault : Type :=
| ValueError (position : nat) (text : string).

(** The result of a method call: a returned value or a raised exception. *)
Inductive outcome (A : Type) : Type :=
| Returned (a : A)
| Raised (e : fault).
Arguments Returned {A} a.
Arguments Raised {A} e.

Definition bind {A B : Type} (m : outcome A) (k : A -> outcome B) : outcome B :=
  match m with
  | Returned a => k a
  | Raised e => Raised e
  end.

Notation "x <- m ;; k" := (bind m (fun x => k))
  (at level 61, m at next level, right associativity).

(** ** pandas: numeric columns *)

(** Sums and means of exact values; the code rounds each addition and the
    division ([Binary64] below). *)
Module Series.

Fixpoint sum (s : list Q) : Q :=
  match s with
  | [] => 0
  | x :: t => x + sum t
  end.

Definition count (s : list Q) : nat := List.length s.

Definition mean (s : list Q) : Q := sum s / inject_Z (Z.of_nat (List.length s)).

(** [max] and [min] of a column whose first value is [x]. *)
Definition max (x : Q) (s : list Q) : Q := fold_left Qmax s x.
Definition min (x : Q) (s : list Q) : Q := fold_left Qmin s x.

End Series.

(** NumPy's [rint]: the nearest integer, a tie going to the even one. *)
Definition round_half_even (q : Q) : Z :=
  let f := Qfloor q in
  match ((q - inject_Z f) ?= (1 # 2))%Q with
  | Lt => f
  | Gt => (f + 1)%Z
  | Eq => if Z.even f then f else (f + 1)%Z
  end.

(** [.round(2)], on the exact value. *)
Definition round2 (q : Q) : Q := inject_Z (round_half_even (q * 100)) / 100.

(** ** pandas: grouping and sorting *)

Definition is_Eq (c : comparison) : bool :=
  match c with Eq => true | _ => false end.

Section GroupBy.

Context {A K : Type} (cmp : K -> K -> comparison).

(** Insertion of a key in an ascending list without repetition. *)
Fixpoint insert_key (k : K) (ks : list K) : list K :=
  match ks with
  | [] => [k]
  | h :: t =>
      match cmp k h with
      | Lt => k :: ks
      | Eq => ks
      | Gt => h :: insert_key k t
      end
  end.

(** The distinct keys of a column, ascending. *)
Definition group_keys (ks : list K) : list K := fold_right insert_key [] ks.

(** The rows of [df] whose key is [k], in row order. *)
Definition get_group (key : A -> K) (k : K) (df : list A) : list A :=
  filter (fun r => is_Eq (cmp (key r) k)) df.

(** [df.groupby(key)]: one group per distinct key, by ascending key. *)
Definition groupby (key : A -> K) (df : list A) : list (K * list A) :=
  map (fun k => (k, get_group key k df)) (group_keys (map key df)).

End GroupBy.

Section SortValues.

Context {A : Type} (by_ : A -> Q).

(** [x] goes before the first row whose key is not larger than its own. *)
Fixpoint insert_desc (x : A) (l : list A) : list A :=
  match l with
  | [] => [x]
  | h :: t => if Qle_bool (by_ h) (by_ x) then x :: l else h :: insert_desc x t
  end.

(** [sort_values(by, ascending=False)] *)
Definition sort_values_desc (l : list A) : list A := fold_right insert_desc [] l.

(** [nlargest(n, by)] with [keep='first']: nothing for [n <= 0], else the
    first [n] rows of the descending order. *)
Definition nlargest (n : Z) (l : list A) : list A :=
  if (n <=? 0)%Z then [] else firstn (Z.to_nat n) (sort_values_desc l).

(** [idxmax]: the first row that holds the largest value. *)
Fixpoint idxmax_from (best : A) (l : list A) : A :=
  match l with
  | [] => best
  | h :: t => idxmax_from (if Qle_bool (by_ h) (by_ best) then best else h) t
  end.

End SortValues.

(** The distinct values of a column in order of first appearance. *)
Fixpoint unique (s : list string) : list string :=
  match s with
  | [] => []
  | x :: t => x :: filter (fun y => negb (String.eqb y x)) (unique t)
  end.

(** [value_counts()]: each distinct value with its number of rows, most
    frequent first. *)
Definition value_counts (s : list string) : list (string * nat) :=
  sort_values_desc (fun kc => inject_Z (Z.of_nat (snd kc)))
    (map (fun k => (k, List.length (filter (String.eqb k) s))) (unique s)).

(** ** pandas: dates *)

Record Timestamp : Type := mkTimestamp { year : Z; month : Z; day : Z }.

Definition is_leap (y : Z) : bool :=
  ((y mod 4 =? 0) && (negb (y mod 100 =? 0) || (y mod 400 =? 0)))%Z.

Definition days_in_month (y m : Z) : Z :=
  if (m =? 2)%Z then (if is_leap y then 29 else 28)%Z
  else if ((m =? 4) || (m =? 6) || (m =? 9) || (m =? 11))%Z then 30%Z
  else 31%Z.

(** Days in the years before year [y]. *)
Definition days_before_year (y : Z) : Z :=
  let p := (y - 1)%Z in (p * 365 + p / 4 - p / 100 + p / 400)%Z.

(** Days of year [y] in the months before month [m]. *)
Fixpoint days_before_month_nat (y : Z) (m : nat) : Z :=
  match m with
  | O => 0%Z
  | S k => (days_before_month_nat y k + days_in_month y (Z.of_nat (S k)))%Z
  end.

Definition days_before_month (y m : Z) : Z :=
  days_before_month_nat y (Z.to_nat (m - 1)).

(** The proleptic Gregorian ordinal of a date (1 is 0001-01-01). *)
Definition toordinal (t : Timestamp) : Z :=
  (days_before_year (year t) + days_before_month (year t) (month t) + day t)%Z.

Definition digit (c : ascii) : option Z :=
  let n := nat_of_ascii c in
  if ((48 <=? n) && (n <=? 57))%nat then Some (Z.of_nat (n - 48)) else None.

Fixpoint number (acc : Z) (cs : list ascii) : option Z :=
  match cs with
  | [] => Some acc
  | c :: t =>
      match digit c with
      | Some d => number (acc * 10 + d)%Z t
      | None => None
      end
  end.

Definition is_dash (c : ascii) : bool := (nat_of_ascii c =? 45)%nat.

Definition valid_date (y m d : Z) : bool :=
  ((1 <=? y) && (1 <=? m) && (m <=? 12) && (1 <=? d) && (d <=? days_in_month y m))%Z.

(** One ISO calendar date, [YYYY-MM-DD], the form [get_date] asks for.
    pandas reads other forms as well; the statements on dates are on
    snapshots whose dates have this form. *)
Definition parse_date (s : string) : option Timestamp :=
  match list_ascii_of_string s with
  | [y1; y2; y3; y4; s1; m1; m2; s2; d1; d2] =>
      if is_dash s1 && is_dash s2 then
        match number 0 [y1; y2; y3; y4], number 0 [m1; m2], number 0 [d1; d2] with
        | Some y, Some m, Some d =>
            if valid_date y m d then Some (mkTimestamp y m d) else None
        | _, _, _ => None
        end
      else None
  | _ => None
  end.

(** [pd.to_datetime] on the rows from position [pos] on. *)
Fixpoint to_datetime_from (pos : nat) (s : list string) : outcome (list Timestamp) :=
  match s with
  | [] => Returned []
  | x :: t =>
      match parse_date x with
      | None => Raised (ValueError pos x)
      | Some d => ds <- to_datetime_from (S pos) t ;; Returned (d :: ds)
      end
  end.

Definition to_datetime (s : list string) : outcome (list Timestamp) :=
  to_datetime_from 0 s.

(** A monthly period, held as pandas holds it: months since 1970-01. *)
Definition Period : Type := Z.

(** [.dt.to_period('M')] *)
Definition to_period (t : Timestamp) : Period :=
  ((year t - 1970) * 12 + (month t - 1))%Z.

(** [max] and [min] of a datetime column whose first value is [t]. *)
Definition later (a b : Timestamp) : Timestamp :=
  if (toordinal a <? toordinal b)%Z then b else a.
Definition earlier (a b : Timestamp) : Timestamp :=
  if (toordinal b <? toordinal a)%Z then b else a.
Definition Timestamp_max (t : Timestamp) (s : list Timestamp) : Timestamp :=
  fold_left later s t.
Definition Timestamp_min (t : Timestamp) (s : list Timestamp) : Timestamp :=
  fold_left earlier s t.

(** [(a - b).days] *)
Definition days_between (a b : Timestamp) : Z := (toordinal a - toordinal b)%Z.

(** ** Python: formatting *)

(** [str(n)] for an integer. *)
Definition string_of_Z (z : Z) : string := NilZero.string_of_int (Z.to_int z).

Definition two_digits (z : Z) : string :=
  if (z <? 10)%Z then "0" ++ string_of_Z z else string_of_Z z.

(** The format [:.2f]. *)
Definition format_2f (q : Q) : string :=
  let c := round_half_even (Qabs q * 100) in
  (if Qle_bool 0 q then "" else "-")
    ++ string_of_Z (c / 100) ++ "." ++ two_digits (c mod 100).

(** ** ExpenseAnalyzer *)

(** The dictionary returned by [get_spending_summary]. *)
Record summary : Type := mkSummary {
  total_expenses : nat;
  total_spent : Q;
  average_expense : Q;
  largest_expense : Q;
  smallest_expense : Q
}.

(** A row of [spending_by_category]: columns [Total], [Count], [Average]. *)
Record category_row : Type := mkCategoryRow {
  Total : Q;
  Count : nat;
  Average : Q
}.

(** A row of [spending_by_payment_method]: columns [Total], [Count]. *)
Record payment_row : Type := mkPaymentRow {
  Payment_Total : Q;
  Payment_Count : nat
}.

(** A row of [monthly_spending_trend]: columns [Total Spent],
    [Num Expenses], [Avg Expense]. *)
Record monthly_row : Type := mkMonthlyRow {
  Total_Spent : Q;
  Num_Expenses : nat;
  Avg_Expense : Q
}.

(** A row of [category_percentage]: columns [Amount], [Percentage]. *)
Record percentage_row : Type := mkPercentageRow {
  Amount : Q;
  Percentage : Q
}.

(** A row of [top_expenses]: the columns kept by
    [[['date', 'amount', 'category', 'description']]]. *)
Record top_row : Type := mkTopRow {
  top_date : string;
  top_amount : Q;
  top_category : string;
  top_description : string
}.

Definition amounts (df : DataFrame) : list Q := map amount df.

Definition get_spending_summary (df : DataFrame) : outcome (option summary) :=
  match df with
  | [] => Returned None
  | r :: rest =>
      Returned (Some {|
        total_expenses := List.length df;
        total_spent := Series.sum (amounts df);
        average_expense := Series.mean (amounts df);
        largest_expense := Series.max (amount r) (amounts rest);
        smallest_expense := Series.min (amount r) (amounts rest)
      |})
  end.

(** [.agg({'amount': ['sum', 'count', 'mean']}).round(2)] on one group. *)
Definition agg_sum_count_mean (g : DataFrame) : category_row :=
  {| Total := round2 (Series.sum (amounts g));
     Count := Series.count (amounts g);
     Average := round2 (Series.mean (amounts g)) |}.

Definition spending_by_category (df : DataFrame)
  : outcome (option (list (string * category_row))) :=
  if empty df then Returned None
  else
    let category_summary :=
      map (fun kg => (fst kg, agg_sum_count_mean (snd kg)))
          (groupby String.compare category df) in
    Returned (Some (sort_values_desc (fun kr => Total (snd kr)) category_summary)).

Definition agg_sum_count (g : DataFrame) : payment_row :=
  {| Payment_Total := round2 (Series.sum (amounts g));
     Payment_Count := Series.count (amounts g) |}.

Definition spending_by_payment_method (df : DataFrame)
  : outcome (option (list (string * payment_row))) :=
  if empty df then Returned None
  else
    let payment_summary :=
      map (fun kg => (fst kg, agg_sum_count (snd kg)))
          (groupby String.compare payment_method df) in
    Returned (Some (sort_values_desc (fun kr => Payment_Total (snd kr)) payment_summary)).

(** The frame after [df['date'] = pd.to_datetime(df['date'])]: every row
    with its parsed date. *)
Definition dated (dts : list Timestamp) (df : DataFrame) : list (Timestamp * expense) :=
  combine dts df.

(** [df.groupby('month')], the month being [df['date'].dt.to_period('M')]. *)
Definition monthly_groups (rows : list (Timestamp * expense))
  : list (Period * list (Timestamp * expense)) :=
  groupby Z.compare (fun row => to_period (fst row)) rows.

Definition agg_monthly (g : list (Timestamp * expense)) : monthly_row :=
  let s := amounts (map snd g) in
  {| Total_Spent := round2 (Series.sum s);
     Num_Expenses := Series.count s;
     Avg_Expense := round2 (Series.mean s) |}.

Definition monthly_spending_trend (df : DataFrame)
  : outcome (option (list (Period * monthly_row))) :=
  if empty df then Returned None
  else
    dts <- to_datetime (map date df) ;;
    Returned (Some (map (fun kg => (fst kg, agg_monthly (snd kg)))
                        (monthly_groups (dated dts df)))).

Definition project (r : expense) : top_row :=
  {| top_date := date r;
     top_amount := amount r;
     top_category := category r;
     top_description := description r |}.

Definition top_expenses (n : Z) (df : DataFrame) : outcome (option (list top_row)) :=
  if empty df then Returned None
  else Returned (Some (map project (nlargest amount n df))).

(** [df.groupby('category')['amount'].sum()] *)
Definition category_sums (df : DataFrame) : list (string * Q) :=
  map (fun kg => (fst kg, Series.sum (amounts (snd kg))))
      (groupby String.compare category df).

Definition category_percentage (df : DataFrame)
  : outcome (option (list (string * percentage_row))) :=
  if empty df then Returned None
  else
    let total_spending := Series.sum (amounts df) in
    let category_totals := sort_values_desc snd (category_sums df) in
    Returned (Some (map (fun ks =>
                           (fst ks,
                            {| Amount := snd ks;
                               Percentage := round2 (snd ks / total_spending * 100) |}))
                        category_totals)).

(** [s.value_counts().index[0]] *)
Definition most_frequent (s : list string) : string :=
  match value_counts s with
  | kc :: _ => fst kc
  | [] => ""
  end.

(** [df.groupby('category')['amount'].sum().idxmax()] *)
Definition highest_spending_cat (df : DataFrame) : string :=
  match category_sums df with
  | h :: t => fst (idxmax_from snd h t)
  | [] => ""
  end.

(** [df.groupby('category')['amount'].sum().max()] *)
Definition highest_amount (df : DataFrame) : Q :=
  match map snd (category_sums df) with
  | x :: s => Series.max x s
  | [] => 0
  end.

(** [(df['date'].max() - df['date'].min()).days + 1]; the column has a row
    whenever [df] has one. *)
Definition date_range (dts : list Timestamp) : Z :=
  match dts with
  | t :: s => (days_between (Timestamp_max t s) (Timestamp_min t s) + 1)%Z
  | [] => 1%Z
  end.

Definition daily_avg (dts : list Timestamp) (df : DataFrame) : Q :=
  Series.sum (amounts df) / inject_Z (date_range dts).

Definition avg_expense (df : DataFrame) : Q := Series.mean (amounts df).

(** [len(df[df['amount'] > avg_expense * 2])] *)
Definition large_purchases (df : DataFrame) : nat :=
  List.length (filter (fun r => negb (Qle_bool (amount r) (avg_expense df * 2))) df).

Definition find_patterns (df : DataFrame) : outcome (list string) :=
  if empty df then Returned []
  else
    dts <- to_datetime (map date df) ;;
    Returned
      [ ("Most frequent expense category: " ++ most_frequent (map category df))%string;
        ("Highest spending category: " ++ highest_spending_cat df
           ++ " ($" ++ format_2f (highest_amount df) ++ ")")%string;
        ("Most used payment method: " ++ most_frequent (map payment_method df))%string;
        ("Average daily spending: $" ++ format_2f (daily_avg dts df))%string;
        ("Large purchases (>2x average): "
           ++ string_of_Z (Z.of_nat (large_purchases df)))%string ].

(** ** The scenario of the specification *)

Definition scenario : DataFrame :=
  [ mkExpense 3 "2024-02-01" 20 "Transport" "" "Cash";
    mkExpense 2 "2024-01-05" 150 "Food" "" "Card";
    mkExpense 1 "2024-01-01" 50 "Food" "" "Cash" ].

Definition four_amounts : DataFrame :=
  [ mkExpense 1 "2024-03-01" 10 "Food" "" "Cash";
    mkExpense 2 "2024-03-01" 10 "Food" "" "Cash";
    mkExpense 3 "2024-03-01" 10 "Food" "" "Cash";
    mkExpense 4 "2024-03-01" 100 "Shopping" "" "Card" ].

(** ** ExpenseDatabase *)

(** The database file: the rows of the [expenses] table in rowid order, and
    the largest id given so far, which SQLite keeps for an [AUTOINCREMENT]
    key.  Ids are unbounded integers. *)
Record ExpenseDatabase : Type := mkDatabase {
  rows : list expense;
  last_id : Z
}.

(** [CREATE TABLE IF NOT EXISTS expenses], on a file that may not exist. *)
Definition _init_database (file : option ExpenseDatabase) : ExpenseDatabase :=
  match file with
  | Some db => db
  | None => mkDatabase [] 0
  end.

(** The largest id of a table; 0 for the empty table. *)
Definition max_id (t : list expense) : Z :=
  fold_right (fun r m => Z.max (expense_id r) m) 0%Z t.

(** [INSERT INTO expenses (date, amount, category, description,
    payment_method)]: the key is one more than the largest id the table
    ever held; the method returns [cursor.lastrowid]. *)
Definition add_expense (db : ExpenseDatabase)
    (d : string) (a : Q) (c ds pm : string) : Z * ExpenseDatabase :=
  let new_id := (Z.max (last_id db) (max_id (rows db)) + 1)%Z in
  (new_id,
   {| rows := rows db ++ [mkExpense new_id d a c ds pm];
      last_id := new_id |}).

(** [DELETE FROM expenses WHERE id = ?]; the method returns
    [cursor.rowcount > 0]. *)
Definition delete_expense (db : ExpenseDatabase) (i : Z) : bool * ExpenseDatabase :=
  let rowcount := List.length (filter (fun r => (expense_id r =? i)%Z) (rows db)) in
  (Nat.ltb 0 rowcount,
   {| rows := filter (fun r => negb (expense_id r =? i)%Z) (rows db);
      last_id := last_id db |}).

(** The order of two texts in SQLite's default collation: byte by byte. *)
Definition text_le (a b : string) : bool :=
  match String.compare a b with
  | Gt => false
  | _ => true
  end.

(** A row goes before the first row whose date is not later than its own. *)
Fixpoint insert_by_date (x : expense) (l : list expense) : list expense :=
  match l with
  | [] => [x]
  | h :: t =>
      if text_le (date h) (date x) then x :: l else h :: insert_by_date x t
  end.

(** [ORDER BY date DESC]; rows of one date stay in rowid order (SQLite
    leaves their order open). *)
Definition order_by_date_desc (t : list expense) : list expense :=
  fold_right insert_by_date [] t.

(** [SELECT * FROM expenses ORDER BY date DESC] *)
Definition get_all_expenses (db : ExpenseDatabase) : DataFrame :=
  order_by_date_desc (rows db).

(** [date BETWEEN ? AND ?] *)
Definition between (x lo hi : string) : bool := text_le lo x && text_le x hi.

(** [SELECT * FROM expenses WHERE date BETWEEN ? AND ? ORDER BY date DESC] *)
Definition get_expenses_by_date_range (db : ExpenseDatabase)
    (start_date end_date : string) : DataFrame :=
  order_by_date_desc
    (filter (fun r => between (date r) start_date end_date) (rows db)).

(** [SELECT * FROM expenses WHERE category = ? ORDER BY date DESC] *)
Definition get_expenses_by_category (db : ExpenseDatabase) (c : string) : DataFrame :=
  order_by_date_desc (filter (fun r => String.eqb (category r) c) (rows db)).

(** [SELECT COUNT( * ) FROM expenses] *)
Definition get_expense_count (db : ExpenseDatabase) : nat := List.length (rows db).

(** The calls that change the database. *)
Inductive operation : Type :=
| Add (d : string) (a : Q) (c ds pm : string)
| Delete (i : Z).

Definition apply_operation (db : ExpenseDatabase) (op : operation) : ExpenseDatabase :=
  match op with
  | Add d a c ds pm => snd (add_expense db d a c ds pm)
  | Delete i => snd (delete_expense db i)
  end.

(** A history of calls on a new database file. *)
Definition after (ops : list operation) : ExpenseDatabase :=
  fold_left apply_operation ops (_init_database None).

(** ** ExpenseTrackerUI *)

Definition CATEGORIES : list string :=
  [ "Food & Dining"; "Transportation"; "Shopping"; "Entertainment";
    "Bills & Utilities"; "Healthcare"; "Other" ].

Definition PAYMENT_METHODS : list string :=
  [ "Cash"; "Credit Card"; "Debit Card"; "Digital Wallet" ].

(** What [select_from_list] writes: the heading, one numbered line per
    item, the prompt of each [input], and its two complaints. *)
Inductive message : Type :=
| Heading (prompt : string)
| Numbered (i : nat) (item : string)
| Select_number
| Out_of_range (n : nat)
| Not_a_number.

(** How a call of [select_from_list] ends: it returns an item, or [input]
    raises at the end of the input, or the subscript raises. *)
Inductive selection : Type :=
| Selected (item : string)
| EOFError
| IndexError.

(** [enumerate(items, i)], each pair printed. *)
Fixpoint numbered (i : nat) (items : list string) : list message :=
  match items with
  | [] => []
  | item :: rest => Numbered i item :: numbered (S i) rest
  end.

Section SelectFromList.

Context (int : string -> option Z).

(** The loop of [select_from_list] on the lines still to be read; [int]
    answers [None] where Python's [int] raises [ValueError].  The result
    comes with the lines left unread and the messages written. *)
Fixpoint select_loop (items : list string) (stdin : list string)
  : selection * list string * list message :=
  match stdin with
  | [] => (EOFError, [], [Select_number])
  | line :: rest =>
      match int line with
      | Some choice =>
          if ((1 <=? choice) && (choice <=? Z.of_nat (List.length items)))%Z then
            match nth_error items (Z.to_nat (choice - 1)) with
            | Some item => (Selected item, rest, [Select_number])
            | None => (IndexError, rest, [Select_number])
            end
          else
            let '(res, unread, out) := select_loop items rest in
            (res, unread, Select_number :: Out_of_range (List.length items) :: out)
      | None =>
          let '(res, unread, out) := select_loop items rest in
          (res, unread, Select_number :: Not_a_number :: out)
      end
  end.

Definition select_from_list (items : list string) (prompt : string)
    (stdin : list string) : selection * list string * list message :=
  let '(res, unread, out) := select_loop items stdin in
  (res, unread, Heading prompt :: numbered 1 items ++ out).

(** A line that [select_from_list] accepts: a number from 1 to the number
    of items. *)
Definition accepted (items : list string) (line : string) : bool :=
  match int line with
  | Some choice => ((1 <=? choice) && (choice <=? Z.of_nat (List.length items)))%Z
  | None => false
  end.

End SelectFromList.

(** A reader of unsigned decimal numbers, to run [select_from_list] on. *)
Definition decimal (s : string) : option Z :=
  match s with
  | EmptyString => None
  | _ => number 0 (list_ascii_of_string s)
  end.

(** ** The amounts in binary64 *)

(** The arithmetic on the [amount] column as the code runs it: on doubles,
    every operation rounded.  (SQLite stores no NaN, so the column holds
    none.)  The definitions above compute with the exact values instead;
    the two agree wherever only stored amounts are compared. *)
Module Binary64.

Section Column.

(** [Series.sum] on a column of doubles; the order in which NumPy adds the
    values is its own. *)
Context (np_sum : list float -> float).

(** [len(s)] as a double. *)
Definition count (s : list float) : float :=
  of_uint63 (Uint63.of_Z (Z.of_nat (List.length s))).

(** [Series.mean] *)
Definition mean (s : list float) : float := (np_sum s / count s)%float.

(** [max] and [min] of a column whose first value is [x]. *)
Definition max (x : float) (s : list float) : float :=
  fold_left (fun m a => if (m <? a)%float then a else m) s x.
Definition min (x : float) (s : list float) : float :=
  fold_left (fun m a => if (a <? m)%float then a else m) s x.

(** The dictionary of [get_spending_summary]. *)
Record summary : Type := mkSummary {
  total_expenses : nat;
  total_spent : float;
  average_expense : float;
  largest_expense : float;
  smallest_expense : float
}.

(** [get_spending_summary], on the amounts of the snapshot. *)
Definition get_spending_summary (s : list float) : option summary :=
  match s with
  | [] => None
  | x :: rest =>
      Some {| total_expenses := List.length s;
              total_spent := np_sum s;
              average_expense := mean s;
              largest_expense := max x rest;
              smallest_expense := min x rest |}
  end.

(** [len(df[df['amount'] > avg_expense * 2])], on the amounts of the
    snapshot. *)
Definition large_purchases (s : list float) : nat :=
  List.length (filter (fun a => (mean s * 2 <? a)%float) s).


End Column.


(** The number a finite double stands for. *)
Definition exact (f : float) : Q :=
  match FloatOps.Prim2SF f with
  | SpecFloat.S754_finite sign m e =>
      let v := inject_Z (Z.pos m) * Qpower 2 e in
      if sign then - v else v
  | _ => 0
  end.

End Binary64.

(** ** The conversion of the dates, whatever it does *)

Section ToDatetime.

(** [pd.to_datetime] on the date column, and what each method goes on to
    do with the converted column. *)
Context {D M : Type}.
Context (pd_to_datetime : list string -> outcome D).
Context (month_table : D -> DataFrame -> outcome (option M)).
Context (insights : D -> DataFrame -> outcome (list string)).

(** [monthly_spending_trend]: the check for an empty frame, the conversion
    of the date column, then the table. *)
Definition monthly_spending_trend_with (df : DataFrame) : outcome (option M) :=
  if empty df then Returned None
  else
    dts <- pd_to_datetime (map date df) ;;
    month_table dts df.

(** [find_patterns]: the check for an empty frame, the conversion of the
    date column, then the insights. *)
Definition find_patterns_with (df : DataFrame) : outcome (list string) :=
  if empty df then Returned []
  else
    dts <- pd_to_datetime (map date df) ;;
    insights dts df.

End ToDatetime.

(** ** Vocabulary of the statements *)

(** Rows in descending order of [by_]. *)
Definition descending {A : Type} (by_ : A -> Q) (a b : A) : Prop := by_ b <= by_ a.


(** The rows whose [by_] equals [q]. *)
Definition with_value {A : Type} (by_ : A -> Q) (q : Q) (l : list A) : list A :=
  filter (fun x => Qeq_bool (by_ x) q) l.

(** Keys in ascending order of [cmp]. *)
Definition ascending {K : Type} (cmp : K -> K -> comparison) (a b : K) : Prop :=
  cmp a b = Lt.

(** The records of category [c], in snapshot order. *)
Definition in_category (c : string) (df : DataFrame) : DataFrame :=
  filter (fun r => String.eqb (category r) c) df.


(** Every date of the snapshot is a calendar date that [parse_date] reads. *)
Definition parseable (df : DataFrame) : bool :=
  forallb (fun r => match parse_date (date r) with Some _ => true | None => false end) df.



(** One month before another, as calendar year and month. *)
Definition month_before (a b : Timestamp) : Prop :=
  (year a < year b \/ (year a = year b /\ month a < month b))%Z.


(** The ids of a table. *)
Definition ids (t : list expense) : list Z := map expense_id t.

(** The keys of a database are in order: no id twice, every id positive and
    at most the largest id given. *)
Definition well_keyed (db : ExpenseDatabase) : Prop :=
  NoDup (ids (rows db)) /\
  Forall (fun r => (1 <= expense_id r <= last_id db)%Z) (rows db).

(** Rows from the latest date to the earliest, dates compared as text. *)
Definition date_descending (a b : expense) : Prop :=
  text_le (date b) (date a) = true.


(** How many rows of a column hold the value [v]. *)
Definition occurrences (v : string) (s : list string) : nat :=
  List.length (filter (String.eqb v) s).

(** One calendar date before another, as year, month and day. *)
Definition date_before (a b : Timestamp) : Prop :=
  (year a < year b
   \/ (year a = year b /\ month a < month b)
   \/ (year a = year b /\ month a = month b /\ day a < day b))%Z.

(** Rows from the newest calendar date to the oldest, for the rows whose
    date [parse_date] reads. *)
Definition newest_first (r1 r2 : expense) : Prop :=
  forall t1 t2,
    parse_date (date r1) = Some t1 -> parse_date (date r2) = Some t2 ->
    (toordinal t2 <= toordinal t1)%Z.

(** The text of a calendar date: four digits, a dash, two digits, a dash,
    two digits, and the date they spell. *)
Inductive iso_text : string -> Timestamp -> Prop :=
| iso_text_intro (y1 y2 y3 y4 s1 m1 m2 s2 d1 d2 : ascii)
    (a1 a2 a3 a4 b1 b2 c1 c2 : Z) :
    digit y1 = Some a1 -> digit y2 = Some a2 ->
    digit y3 = Some a3 -> digit y4 = Some a4 ->
    is_dash s1 = true ->
    digit m1 = Some b1 -> digit m2 = Some b2 ->
    is_dash s2 = true ->
    digit d1 = Some c1 -> digit d2 = Some c2 ->
    iso_text
      (String y1 (String y2 (String y3 (String y4 (String s1
        (String m1 (String m2 (String s2 (String d1 (String d2 EmptyString))))))))))
      (mkTimestamp ((((0 * 10 + a1) * 10 + a2) * 10 + a3) * 10 + a4)
                   ((0 * 10 + b1) * 10 + b2)
                   ((0 * 10 + c1) * 10 + c2)).

(** One calendar date not after another, as year, month and day. *)
Definition date_not_after (a b : Timestamp) : Prop :=
  (year a < year b
   \/ (year a = year b /\ month a < month b)
   \/ (year a = year b /\ month a = month b /\ day a <= day b))%Z.

(** * Properties *)

(** ** The descending sort *)

Section SortValuesFacts.

Context {A : Type} (by_ : A -> Q).

Lemma insert_desc_perm (x : A) (l : list A) :
  Permutation (insert_desc by_ x l) (x :: l).
Proof.
  induction l as [|h t IH]; simpl; [reflexivity|].
  destruct (Qle_bool (by_ h) (by_ x)); [reflexivity|].
  rewrite IH. apply perm_swap.
Qed.

Lemma sort_values_desc_perm (l : list A) :
  Permutation (sort_values_desc by_ l) l.
Proof.
  induction l as [|x t IH]; simpl; [constructor|].
  rewrite insert_desc_perm. now constructor.
Qed.

Lemma sort_values_desc_length (l : list A) :
  List.length (sort_values_desc by_ l) = List.length l.
Proof. apply Permutation_length, sort_values_desc_perm. Qed.

Lemma sort_values_desc_In (x : A) (l : list A) :
  In x (sort_values_desc by_ l) <-> In x l.
Proof.
  split; apply Permutation_in;
    [apply sort_values_desc_perm | symmetry; apply sort_values_desc_perm].
Qed.

Lemma insert_desc_sorted (x : A) (l : list A) :
  StronglySorted (descending by_) l ->
  StronglySorted (descending by_) (insert_desc by_ x l).
Proof.
  induction 1 as [|h t Hs IH Hall]; simpl.
  - repeat constructor.
  - destruct (Qle_bool (by_ h) (by_ x)) eqn:E.
    + apply Qle_bool_iff in E.
      constructor; [now constructor|].
      constructor; [exact E|].
      eapply Forall_impl; [|exact Hall].
      intros y Hy. unfold descending in *. now apply Qle_trans with (by_ h).
    + constructor; [exact IH|].
      eapply Permutation_Forall; [symmetry; apply insert_desc_perm|].
      constructor; [|exact Hall].
      unfold descending. apply Qlt_le_weak, Qnot_le_lt.
      intro H. apply Qle_bool_iff in H. congruence.
Qed.

Lemma sort_values_desc_sorted (l : list A) :
  StronglySorted (descending by_) (sort_values_desc by_ l).
Proof.
  induction l as [|x t IH]; simpl; [constructor|].
  now apply insert_desc_sorted.
Qed.

(** Stability: the rows that share a value keep their order. *)
Lemma insert_desc_with_value (q : Q) (x : A) (l : list A) :
  with_value by_ q (insert_desc by_ x l) = with_value by_ q (x :: l).
Proof.
  induction l as [|h t IH]; [reflexivity|].
  simpl insert_desc.
  destruct (Qle_bool (by_ h) (by_ x)) eqn:E; [reflexivity|].
  unfold with_value in *. simpl in *. rewrite IH.
  destruct (Qeq_bool (by_ h) q) eqn:Eh, (Qeq_bool (by_ x) q) eqn:Ex; try reflexivity.
  exfalso.
  apply Qeq_bool_iff in Eh, Ex.
  assert (H : Qle_bool (by_ h) (by_ x) = true).
  { apply Qle_bool_iff. rewrite Eh, Ex. apply Qle_refl. }
  congruence.
Qed.

Lemma sort_values_desc_stable (q : Q) (l : list A) :
  with_value by_ q (sort_values_desc by_ l) = with_value by_ q l.
Proof.
  induction l as [|x t IH]; [reflexivity|].
  simpl sort_values_desc. rewrite insert_desc_with_value.
  unfold with_value in *. simpl. now rewrite IH.
Qed.



Lemma nlargest_length (n : Z) (l : list A) :
(1 <= n)%Z ->
List.length (nlargest by_ n l) = Nat.min (Z.to_nat n) (List.length l).
Proof.
intro Hn. unfold nlargest.
destruct (n <=? 0)%Z eqn:E; [lia|].
now rewrite length_firstn, sort_values_desc_length.
Qed.

Lemma nlargest_prefix (n : Z) (l : list A) :
  (1 <= n)%Z ->
  nlargest by_ n l = firstn (Z.to_nat n) (nlargest by_ (n + 1) l).
Proof.
  intro Hn. unfold nlargest.
  destruct (n <=? 0)%Z eqn:E1; [lia|].
  destruct (n + 1 <=? 0)%Z eqn:E2; [lia|].
  rewrite firstn_firstn. f_equal. lia.
Qed.

End SortValuesFacts.

(** ** Grouping *)

Section GroupByFacts.

Context {A K : Type} (cmp : K -> K -> comparison).
Hypothesis cmp_eq : forall a b, cmp a b = Eq <-> a = b.
Hypothesis cmp_antisym : forall a b, cmp a b = CompOpp (cmp b a).
Hypothesis cmp_trans : forall a b c, cmp a b = Lt -> cmp b c = Lt -> cmp a c = Lt.

Lemma is_Eq_cmp (a b : K) : is_Eq (cmp a b) = true <-> a = b.
Proof.
  rewrite <- cmp_eq. unfold is_Eq. destruct (cmp a b); split; congruence.
Qed.

Lemma cmp_irrefl (a : K) : cmp a a <> Lt.
Proof.
  assert (H : cmp a a = Eq) by now apply cmp_eq. congruence.
Qed.

Lemma insert_key_In (k x : K) (ks : list K) :
  In x (insert_key cmp k ks) <-> x = k \/ In x ks.
Proof.
  induction ks as [|h t IH]; simpl.
  - intuition.
  - destruct (cmp k h) eqn:E; simpl.
    + apply cmp_eq in E. subst. intuition.
    + intuition.
    + rewrite IH. intuition.
Qed.

Lemma group_keys_In (x : K) (ks : list K) :
  In x (group_keys cmp ks) <-> In x ks.
Proof.
  induction ks as [|k t IH]; simpl; [reflexivity|].
  rewrite insert_key_In, IH. intuition.
Qed.

Lemma insert_key_sorted (k : K) (ks : list K) :
  StronglySorted (ascending cmp) ks ->
  StronglySorted (ascending cmp) (insert_key cmp k ks).
Proof.
  induction 1 as [|h t Hs IH Hall]; simpl.
  - repeat constructor.
  - destruct (cmp k h) eqn:E.
    + now constructor.
    + constructor; [now constructor|].
      constructor; [exact E|].
      eapply Forall_impl; [|exact Hall].
      intros y Hy. now apply cmp_trans with h.
    + constructor; [exact IH|].
      apply Forall_forall. intros y Hy.
      apply insert_key_In in Hy. destruct Hy as [->|Hy].
      * unfold ascending. rewrite cmp_antisym, E. reflexivity.
      * rewrite Forall_forall in Hall. now apply Hall.
Qed.

Lemma group_keys_sorted (ks : list K) :
  StronglySorted (ascending cmp) (group_keys cmp ks).
Proof.
  induction ks as [|k t IH]; simpl; [constructor|].
  now apply insert_key_sorted.
Qed.

Lemma sorted_NoDup (ks : list K) : StronglySorted (ascending cmp) ks -> NoDup ks.
Proof.
  induction 1 as [|h t Hs IH Hall]; constructor; [|exact IH].
  intro Hin. rewrite Forall_forall in Hall.
  now apply (cmp_irrefl h), Hall.
Qed.

Lemma group_keys_NoDup (ks : list K) : NoDup (group_keys cmp ks).
Proof. apply sorted_NoDup, group_keys_sorted. Qed.




(** The groups of keys [ks], one after the other, are the rows whose key
    is in [ks]. *)
Lemma groups_perm (key : A -> K) (df : list A) (ks : list K) :
  NoDup ks ->
  Permutation
    (List.concat (map (fun k => get_group cmp key k df) ks))
    (filter (fun r => existsb (fun k => is_Eq (cmp (key r) k)) ks) df).
Proof.
  induction 1 as [|k t Hk Hnd IH]; simpl.
  - induction df; simpl; auto.
  - rewrite IH. clear IH. unfold get_group.
    induction df as [|r df IHdf]; simpl; [constructor|].
    destruct (is_Eq (cmp (key r) k)) eqn:E; simpl.
    + apply is_Eq_cmp in E.
      assert (Ht : existsb (fun k0 => is_Eq (cmp (key r) k0)) t = false).
      { apply not_true_is_false. intro H. apply existsb_exists in H.
        destruct H as [k' [Hin Heq]]. apply is_Eq_cmp in Heq. congruence. }
      rewrite Ht. now constructor.
    + destruct (existsb (fun k0 => is_Eq (cmp (key r) k0)) t); [|exact IHdf].
      rewrite <- Permutation_middle. now constructor.
Qed.

(** [groupby] is a partition of the frame. *)
Lemma groupby_partition (key : A -> K) (df : list A) :
  Permutation (List.concat (map snd (groupby cmp key df))) df.
Proof.
  unfold groupby. rewrite map_map. simpl.
  rewrite groups_perm by apply group_keys_NoDup.
  replace (filter _ df) with df; [reflexivity|].
  symmetry. apply forallb_filter_id. apply forallb_forall.
  intros r Hr. apply existsb_exists. exists (key r). split.
  - apply group_keys_In. now apply in_map.
  - now apply is_Eq_cmp.
Qed.

End GroupByFacts.

(** The two key orders in use: text (category, payment method) and monthly
    periods. *)

Lemma string_compare_eq (a b : string) : String.compare a b = Eq <-> a = b.
Proof.
  split; [apply String.compare_eq_iff|].
  intros ->. pose proof (String.compare_antisym b b) as H.
  destruct (String.compare b b); simpl in H; congruence.
Qed.

Lemma string_compare_trans (a b c : string) :
  String.compare a b = Lt -> String.compare b c = Lt -> String.compare a c = Lt.
Proof.
  intros H1 H2.
  exact (@StrictOrder_Transitive _ _ String_as_OT.lt_strorder a b c H1 H2).
Qed.

Lemma Z_compare_eq (a b : Z) : Z.compare a b = Eq <-> a = b.
Proof. apply Z.compare_eq_iff. Qed.

Lemma Z_compare_antisym (a b : Z) : Z.compare a b = CompOpp (Z.compare b a).
Proof. apply Z.compare_antisym. Qed.

Lemma Z_compare_trans (a b c : Z) :
  Z.compare a b = Lt -> Z.compare b c = Lt -> Z.compare a c = Lt.
Proof. rewrite !Z.compare_lt_iff. lia. Qed.


(** ** Sums, counts and means *)




Lemma length_concat (A : Type) (ls : list (list A)) :
  List.length (List.concat ls) = list_sum (map (@List.length A) ls).
Proof.
  induction ls as [|l ls IH]; simpl; [reflexivity|].
  now rewrite length_app, IH.
Qed.

Lemma max_upper (x : Q) (s : list Q) :
  x <= Series.max x s /\ Forall (fun y => y <= Series.max x s) s.
Proof.
  unfold Series.max. revert x.
  induction s as [|y s IH]; intro x; simpl.
  - split; [apply Qle_refl|constructor].
  - destruct (IH (Qmax x y)) as [H1 H2]. split; [|constructor; [|exact H2]].
    + eapply Qle_trans; [apply Q.le_max_l|exact H1].
    + eapply Qle_trans; [apply Q.le_max_r|exact H1].
Qed.


(** A bound on every value bounds the sum by as many times the bound. *)
Lemma sum_le_bound (b : Q) (s : list Q) :
  Forall (fun y => y <= b) s ->
  Series.sum s <= b * inject_Z (Z.of_nat (List.length s)).
Proof.
  induction 1 as [|y s Hy Hs IH].
  - simpl. setoid_replace (b * inject_Z 0) with 0 by ring. apply Qle_refl.
  - change (List.length (y :: s)) with (S (List.length s)).
    rewrite Nat2Z.inj_succ. unfold Z.succ. rewrite inject_Z_plus.
    simpl Series.sum.
    setoid_replace (b * (inject_Z (Z.of_nat (List.length s)) + inject_Z 1))
      with (b + b * inject_Z (Z.of_nat (List.length s))) by ring.
    now apply Qplus_le_compat.
Qed.

Lemma sum_ge_bound (b : Q) (s : list Q) :
  Forall (fun y => b <= y) s ->
  b * inject_Z (Z.of_nat (List.length s)) <= Series.sum s.
Proof.
  induction 1 as [|y s Hy Hs IH].
  - simpl. setoid_replace (b * inject_Z 0) with 0 by ring. apply Qle_refl.
  - change (List.length (y :: s)) with (S (List.length s)).
    rewrite Nat2Z.inj_succ. unfold Z.succ. rewrite inject_Z_plus.
    simpl Series.sum.
    setoid_replace (b * (inject_Z (Z.of_nat (List.length s)) + inject_Z 1))
      with (b + b * inject_Z (Z.of_nat (List.length s))) by ring.
    now apply Qplus_le_compat.
Qed.



(** ** Overall summary *)


Lemma max_attained (x : Q) (s : list Q) :
  exists y, In y (x :: s) /\ Series.max x s == y.
Proof.
  unfold Series.max. revert x. induction s as [|z s IH]; intro x; simpl.
  - exists x. split; [now left|reflexivity].
  - destruct (IH (Qmax x z)) as [y [[Hy|Hy] E]].
    + destruct (Q.max_dec x z) as [Hm|Hm].
      * exists x. split; [now left|]. now rewrite E, <- Hy.
      * exists z. split; [right; now left|]. now rewrite E, <- Hy.
    + exists y. split; [right; now right|exact E].
Qed.



#[local] Set Warnings "-inexact-float".


#[local] Set Warnings "+inexact-float".

(** ** The empty snapshot *)

(** C4. On the empty snapshot no analysis raises: the overall summary, the
    two groupings, the monthly trend, the top expenses (whatever [n]) and the
    percentage breakdown return [None], and the pattern insights return the
    empty list. *)
Theorem empty_snapshot_no_data :
  get_spending_summary [] = Returned None /\
  spending_by_category [] = Returned None /\
  spending_by_payment_method [] = Returned None /\
  monthly_spending_trend [] = Returned None /\
  (forall n, top_expenses n [] = Returned None) /\
  category_percentage [] = Returned None /\
  find_patterns [] = Returned [].
Proof. repeat split. Qed.

(** ** Top expenses *)

Lemma sorted_app {A : Type} (R : A -> A -> Prop) (l1 l2 : list A) :
  StronglySorted R (l1 ++ l2) ->
  StronglySorted R l1 /\ Forall (fun x => Forall (R x) l2) l1.
Proof.
  induction l1 as [|x l1 IH]; simpl; intro H.
  - split; constructor.
  - apply StronglySorted_inv in H. destruct H as [Hs Hall].
    destruct (IH Hs) as [H1 H2]. apply Forall_app in Hall.
    destruct Hall as [Ha Hb].
    split; constructor; assumption.
Qed.

Lemma In_firstn {A : Type} (x : A) (n : nat) (l : list A) :
  In x (firstn n l) -> In x l.
Proof.
  intro H. rewrite <- (firstn_skipn n l). apply in_or_app. now left.
Qed.

Lemma filter_firstn_prefix {A : Type} (p : A -> bool) (n : nat) (l : list A) :
  filter p (firstn n l) =
  firstn (List.length (filter p (firstn n l))) (filter p l).
Proof.
  revert n. induction l as [|x l IH]; intro n.
  - now rewrite firstn_nil.
  - destruct n as [|n]; [reflexivity|]. simpl.
    destruct (p x); simpl; [f_equal|]; apply IH.
Qed.

(** C2, as the code has it. [top_expenses] raises for no [n]: below 1 it
    returns the empty selection of a snapshot that has records, and [None]
    on the empty snapshot; from 1 on it returns as well. *)
Theorem top_expenses_never_raises (n : Z) (df : DataFrame) :
  (forall e, top_expenses n df <> Raised e) /\
  ((n < 1)%Z ->
   top_expenses n df = Returned (if empty df then None else Some [])).
Proof.
  split.
  - intro e. unfold top_expenses. destruct (empty df); discriminate.
  - intro Hn. unfold top_expenses, nlargest.
    destruct (empty df); [reflexivity|].
    destruct (n <=? 0)%Z eqn:E; [reflexivity|lia].
Qed.

Lemma top_expenses_never_raises_witness :
  (0 < 1)%Z /\ top_expenses 0 scenario = Returned (Some []).
Proof.
  split; [lia|]. apply (proj2 (top_expenses_never_raises 0 scenario)). lia.
Defined.

(** C2 as stated fails: with [n = 0] the snapshot of the scenario gets an
    empty selection back, not an error. *)
Lemma top_expenses_zero_is_no_error :
  ~ (forall (df : DataFrame) (n : Z),
       (n < 1)%Z -> exists e, top_expenses n df = Raised e).
Proof.
  intro H. destruct (H scenario 0%Z) as [e He]; [lia|]. discriminate He.
Qed.

(** C6. For [n >= 1], the selection of [n] records is a prefix of the
    selection of [n + 1], so its record ids are among those; it holds
    [min n (len df)] records, none smaller than a record left out, in
    descending order of amount; records of one amount come in snapshot
    order, the earliest of the snapshot first.  [top_expenses] returns the
    four exposed columns of that selection. *)
Theorem top_expenses_ranked (n : Z) (df : DataFrame) :
  (1 <= n)%Z ->
  let top := nlargest amount n df in
  (empty df = false -> top_expenses n df = Returned (Some (map project top))) /\
  top = firstn (Z.to_nat n) (nlargest amount (n + 1) df) /\
  incl (map expense_id top) (map expense_id (nlargest amount (n + 1) df)) /\
  List.length top = Nat.min (Z.to_nat n) (List.length df) /\
  (exists rest,
      Permutation (top ++ rest) df /\
      Forall (fun x => Forall (fun y => amount y <= amount x) rest) top) /\
  StronglySorted (descending amount) top /\
  (forall q,
      with_value amount q top =
      firstn (List.length (with_value amount q top)) (with_value amount q df)).
Proof.
  intros Hn top.
  assert (Etop : top = firstn (Z.to_nat n) (sort_values_desc amount df)).
  { unfold top, nlargest. destruct (n <=? 0)%Z eqn:E; [lia|reflexivity]. }
  pose proof (sort_values_desc_sorted amount df) as Hs.
  rewrite <- (firstn_skipn (Z.to_nat n) (sort_values_desc amount df)) in Hs.
  apply sorted_app in Hs. destruct Hs as [Hs1 Hs2].
  repeat split.
  - intro He. unfold top_expenses. now rewrite He.
  - now apply nlargest_prefix.
  - unfold top. rewrite nlargest_prefix by exact Hn.
    intros x Hx. apply in_map_iff in Hx. destruct Hx as [r [<- Hr]].
    apply in_map. eapply In_firstn; exact Hr.
  - rewrite Etop, length_firstn, sort_values_desc_length. reflexivity.
  - exists (skipn (Z.to_nat n) (sort_values_desc amount df)). split.
    + rewrite Etop, firstn_skipn. apply sort_values_desc_perm.
    + rewrite Etop. exact Hs2.
  - rewrite Etop. exact Hs1.
  - intro q. rewrite Etop. unfold with_value.
    rewrite filter_firstn_prefix at 1.
    f_equal. apply (sort_values_desc_stable amount q df).
Qed.

Lemma top_expenses_ranked_witness :
  (1 <= 1)%Z /\
  top_expenses 1 scenario =
    Returned (Some [mkTopRow "2024-01-05" 150 "Food" ""]) /\
  incl (map expense_id (nlargest amount 1 scenario))
       (map expense_id (nlargest amount 2 scenario)).
Proof.
  pose proof (top_expenses_ranked 1 scenario ltac:(lia)) as H.
  cbv zeta in H. destruct H as [H1 [_ [H3 _]]].
  split; [lia|]. split; [|exact H3].
  rewrite (H1 eq_refl). reflexivity.
Defined.

(** ** Spending by category *)









(** ** Category percentages *)





(** ** Dates *)

Lemma parse_date_valid (s : string) (t : Timestamp) :
  parse_date s = Some t -> valid_date (year t) (month t) (day t) = true.
Proof.
  unfold parse_date.
  destruct (list_ascii_of_string s) as [|y1 [|y2 [|y3 [|y4 [|s1 [|m1 [|m2
    [|s2 [|d1 [|d2 [|]]]]]]]]]]]; try discriminate.
  destruct (is_dash s1 && is_dash s2); [|discriminate].
  destruct (number 0 [y1; y2; y3; y4]) as [y|]; [|discriminate].
  destruct (number 0 [m1; m2]) as [m|]; [|discriminate].
  destruct (number 0 [d1; d2]) as [d|]; [|discriminate].
  destruct (valid_date y m d) eqn:E; [|discriminate].
  intro H. inversion H; subst. exact E.
Qed.

Lemma parse_date_month (s : string) (t : Timestamp) :
  parse_date s = Some t -> (1 <= month t <= 12)%Z.
Proof.
  intro H. apply parse_date_valid in H. unfold valid_date in H.
  repeat (apply andb_prop in H; destruct H as [H ?]). lia.
Qed.

(** Periods order the months of the calendar. *)
Lemma to_period_chronological (a b : Timestamp) :
  (1 <= month a <= 12)%Z -> (1 <= month b <= 12)%Z ->
  ((to_period a < to_period b)%Z <-> month_before a b) /\
  (to_period a = to_period b <-> year a = year b /\ month a = month b).
Proof.
  unfold to_period, month_before. lia.
Qed.

(** On a column of calendar dates [to_datetime] returns, one timestamp per
    row. *)
Lemma to_datetime_from_parseable (pos : nat) (df : DataFrame) :
  parseable df = true ->
  exists dts,
    to_datetime_from pos (map date df) = Returned dts /\
    Forall2 (fun t r => parse_date (date r) = Some t) dts df.
Proof.
  revert pos. induction df as [|r df IH]; intros pos H; simpl in *.
  - exists []. split; constructor.
  - apply andb_prop in H. destruct H as [Hr Hdf].
    destruct (parse_date (date r)) as [t|] eqn:E; [|discriminate].
    destruct (IH (S pos) Hdf) as [dts [E1 E2]].
    exists (t :: dts). rewrite E1. split; [reflexivity|].
    now constructor.
Qed.

Lemma to_datetime_parseable (df : DataFrame) :
  parseable df = true ->
  exists dts,
    to_datetime (map date df) = Returned dts /\
    Forall2 (fun t r => parse_date (date r) = Some t) dts df.
Proof. apply to_datetime_from_parseable. Qed.

Lemma dated_snd (dts : list Timestamp) (df : DataFrame) :
  Forall2 (fun t r => parse_date (date r) = Some t) dts df ->
  map snd (dated dts df) = df.
Proof.
  unfold dated. induction 1; simpl; [reflexivity|]. now f_equal.
Qed.

Lemma dated_months (dts : list Timestamp) (df : DataFrame) :
  Forall2 (fun t r => parse_date (date r) = Some t) dts df ->
  Forall (fun row => parse_date (date (snd row)) = Some (fst row)
                     /\ (1 <= month (fst row) <= 12)%Z) (dated dts df).
Proof.
  unfold dated. induction 1 as [|t r dts df H Hrest IH]; simpl; constructor.
  - simpl. split; [exact H|]. now apply parse_date_month in H.
  - exact IH.
Qed.

(** ** Monthly trend *)


Lemma count_of_groups {A : Type} (gs : list (list A)) (l : list A) :
  Permutation (List.concat gs) l ->
  list_sum (map (@List.length A) gs) = List.length l.
Proof.
  intro H. rewrite <- (Permutation_length H). symmetry. apply length_concat.
Qed.



(** ** Pattern insights *)








#[local] Set Warnings "-inexact-float".



#[local] Set Warnings "+inexact-float".

(** ** Malformed dates *)

(** The two methods as modelled above are the general ones, with the reader
    of ISO dates for [pd.to_datetime]. *)
Lemma monthly_spending_trend_general (df : DataFrame) :
  monthly_spending_trend df =
  monthly_spending_trend_with to_datetime
    (fun dts df => Returned (Some (map (fun kg => (fst kg, agg_monthly (snd kg)))
                                       (monthly_groups (dated dts df))))) df.
Proof. reflexivity. Qed.

Lemma find_patterns_general (df : DataFrame) :
  find_patterns df =
  find_patterns_with to_datetime
    (fun dts df =>
       Returned
         [ ("Most frequent expense category: " ++ most_frequent (map category df))%string;
           ("Highest spending category: " ++ highest_spending_cat df
              ++ " ($" ++ format_2f (highest_amount df) ++ ")")%string;
           ("Most used payment method: " ++ most_frequent (map payment_method df))%string;
           ("Average daily spending: $" ++ format_2f (daily_avg dts df))%string;
           ("Large purchases (>2x average): "
              ++ string_of_Z (Z.of_nat (large_purchases df)))%string ]) df.
Proof. reflexivity. Qed.





(** ** The scenario of the specification, evaluated *)

Example scenario_by_category :
  spending_by_category scenario =
  Returned (Some [ ("Food", mkCategoryRow (round2 200) 2 (round2 100));
                   ("Transport", mkCategoryRow (round2 20) 1 (round2 20)) ]).
Proof. vm_compute. reflexivity. Qed.

Example scenario_monthly :
  monthly_spending_trend scenario =
  Returned (Some [ (to_period (mkTimestamp 2024 1 1),
                    mkMonthlyRow (round2 200) 2 (round2 100));
                   (to_period (mkTimestamp 2024 2 1),
                    mkMonthlyRow (round2 20) 1 (round2 20)) ]).
Proof. vm_compute. reflexivity. Qed.

Example scenario_percentage :
  category_percentage scenario =
  Returned (Some [ ("Food", mkPercentageRow 200 (round2 (9091 # 100)));
                   ("Transport", mkPercentageRow 20 (round2 (909 # 100))) ]).
Proof. vm_compute. reflexivity. Qed.

Example scenario_summary_total :
  exists s, get_spending_summary scenario = Returned (Some s) /\ total_spent s == 220.
Proof. eexists. split; reflexivity. Qed.

Example ties_keep_snapshot_order :
  nlargest amount 2 four_amounts =
  [ mkExpense 4 "2024-03-01" 100 "Shopping" "" "Card";
    mkExpense 1 "2024-03-01" 10 "Food" "" "Cash" ].
Proof. reflexivity. Qed.

Example half_goes_to_even :
  round2 (1 # 8) == 12 # 100 /\ round2 (3 # 8) == 38 # 100.
Proof. split; reflexivity. Qed.

(** Two categories of equal total come in the order of the grouping, the
    ascending order of the category text, whichever record the snapshot
    lists first. *)
Example equal_totals_follow_grouping :
  spending_by_category
    [ mkExpense 1 "2024-01-02" 10 "Shopping" "" "Cash";
      mkExpense 2 "2024-01-01" 10 "Food" "" "Cash" ] =
  Returned (Some [ ("Food", mkCategoryRow (round2 10) 1 (round2 10));
                   ("Shopping", mkCategoryRow (round2 10) 1 (round2 10)) ]).
Proof. vm_compute. reflexivity. Qed.

(** * The database *)

(** ** Keys *)

Lemma max_id_bound (t : list expense) :
  (0 <= max_id t)%Z /\ Forall (fun r => (expense_id r <= max_id t)%Z) t.
Proof.
  induction t as [|r t [IH1 IH2]]; simpl.
  - split; [lia|constructor].
  - split; [lia|]. constructor; [lia|].
    eapply Forall_impl; [|exact IH2]. simpl. intros x Hx. lia.
Qed.

Lemma add_expense_above (db : ExpenseDatabase) (d : string) (a : Q) (c ds pm : string) :
  Forall (fun r => (expense_id r < fst (add_expense db d a c ds pm))%Z) (rows db) /\
  (last_id db < fst (add_expense db d a c ds pm))%Z /\
  (1 <= fst (add_expense db d a c ds pm))%Z.
Proof.
  simpl. destruct (max_id_bound (rows db)) as [H0 Hb].
  split; [|lia].
  eapply Forall_impl; [|exact Hb]. simpl. intros x Hx. lia.
Qed.

Lemma add_expense_keeps_NoDup (db : ExpenseDatabase) (d : string) (a : Q) (c ds pm : string) :
  NoDup (ids (rows db)) -> NoDup (ids (rows (snd (add_expense db d a c ds pm)))).
Proof.
  intro Hnd. destruct (add_expense_above db d a c ds pm) as [Hlt _].
  simpl in *. unfold ids. rewrite map_app. simpl.
  apply NoDup_app; [exact Hnd|repeat constructor; simpl; tauto|].
  intros x Hx [<-|[]]. apply in_map_iff in Hx. destruct Hx as [r [E Hr]].
  rewrite Forall_forall in Hlt. specialize (Hlt r Hr). lia.
Qed.

(** X1. [add_expense] returns an id larger than every id of the table and
    than every id given before; the table gains exactly the new row, at its
    end, and ids that were distinct stay distinct. *)
Theorem add_expense_fresh (db : ExpenseDatabase) (d : string) (a : Q) (c ds pm : string) :
  let res := add_expense db d a c ds pm in
  Forall (fun r => (expense_id r < fst res)%Z) (rows db) /\
  (last_id db < fst res)%Z /\
  ~ In (fst res) (ids (rows db)) /\
  rows (snd res) = rows db ++ [mkExpense (fst res) d a c ds pm] /\
  get_expense_count (snd res) = S (get_expense_count db) /\
  (NoDup (ids (rows db)) -> NoDup (ids (rows (snd res)))).
Proof.
  intro res. destruct (add_expense_above db d a c ds pm) as [Hlt [Hlast _]].
  fold res in Hlt, Hlast.
  split; [exact Hlt|]. split; [exact Hlast|]. split; [|split; [|split]].
  - intro Hin. unfold ids in Hin. apply in_map_iff in Hin.
    destruct Hin as [r [E Hr]]. rewrite Forall_forall in Hlt.
    specialize (Hlt r Hr). lia.
  - reflexivity.
  - unfold get_expense_count, res. simpl. rewrite length_app. simpl. lia.
  - apply add_expense_keeps_NoDup.
Qed.

(** Rows taken out of a table leave the ids of the others distinct. *)
Lemma filter_keeps_distinct_ids (keep : expense -> bool) (t : list expense) :
  NoDup (ids t) -> NoDup (ids (filter keep t)).
Proof.
  unfold ids. induction t as [|r t IH]; simpl; intro Hnd; [constructor|].
  apply NoDup_cons_iff in Hnd. destruct Hnd as [Hr Ht].
  destruct (keep r); simpl; [|exact (IH Ht)].
  apply NoDup_cons_iff. split; [|exact (IH Ht)].
  intro Hin. apply Hr. apply in_map_iff in Hin.
  destruct Hin as [r' [E Hr']]. apply filter_In in Hr'.
  apply in_map_iff. exists r'. tauto.
Qed.

Lemma well_keyed_apply (db : ExpenseDatabase) (op : operation) :
  well_keyed db ->
  well_keyed (apply_operation db op) /\
  (last_id db <= last_id (apply_operation db op))%Z.
Proof.
  intros [Hnd Hb]. destruct op as [d a c ds pm|i]; simpl.
  - destruct (add_expense_above db d a c ds pm) as [_ [Hlast _]].
    pose proof (add_expense_keeps_NoDup db d a c ds pm Hnd) as Hnd'.
    simpl in *.
    split; [split|lia].
    + exact Hnd'.
    + apply Forall_app. split.
      * eapply Forall_impl; [|exact Hb]. simpl. intros x Hx. lia.
      * repeat constructor; simpl; [|lia].
        destruct (max_id_bound (rows db)) as [H0 _]. lia.
  - split; [split|lia].
    + now apply filter_keeps_distinct_ids.
    + apply Forall_forall. intros r Hr. apply filter_In in Hr.
      rewrite Forall_forall in Hb. now apply Hb.
Qed.

Lemma well_keyed_history (ops : list operation) (db : ExpenseDatabase) :
  well_keyed db ->
  well_keyed (fold_left apply_operation ops db) /\
  (last_id db <= last_id (fold_left apply_operation ops db))%Z.
Proof.
  revert db. induction ops as [|op ops IH]; intros db H; simpl.
  - split; [exact H|lia].
  - destruct (well_keyed_apply db op H) as [H1 H2].
    destruct (IH _ H1) as [H3 H4]. split; [exact H3|lia].
Qed.

Lemma well_keyed_after (ops : list operation) : well_keyed (after ops).
Proof.
  apply well_keyed_history. split; simpl; constructor.
Qed.

(** X2. After any history of calls on a new database file, no two rows
    share an id, and every id is positive and at most the last id given. *)
Theorem history_well_keyed (ops : list operation) :
  NoDup (ids (rows (after ops))) /\
  Forall (fun r => (1 <= expense_id r <= last_id (after ops))%Z) (rows (after ops)).
Proof. exact (well_keyed_after ops). Qed.

(** X3. An id is never given twice: whatever calls follow, deletions
    included, a later [add_expense] returns an id larger than the id of any
    row the table held before. *)
Theorem ids_never_reused (ops1 ops2 : list operation) (r : expense)
    (d : string) (a : Q) (c ds pm : string) :
  In r (rows (after ops1)) ->
  (expense_id r <
   fst (add_expense (fold_left apply_operation ops2 (after ops1)) d a c ds pm))%Z.
Proof.
  intro Hr.
  pose proof (well_keyed_after ops1) as Hwk.
  destruct (well_keyed_history ops2 _ Hwk) as [_ Hmono].
  destruct Hwk as [_ Hb]. rewrite Forall_forall in Hb. specialize (Hb r Hr).
  simpl. lia.
Qed.

Lemma ids_never_reused_witness :
  In (mkExpense 1 "2024-01-01" 50 "Food" "" "Cash")
     (rows (after [Add "2024-01-01" 50 "Food" "" "Cash"])) /\
  (1 < fst (add_expense
              (fold_left apply_operation [Delete 1]
                 (after [Add "2024-01-01" 50 "Food" "" "Cash"]))
              "2024-01-02" 20 "Food" "" "Cash"))%Z.
Proof.
  assert (H : In (mkExpense 1 "2024-01-01" 50 "Food" "" "Cash")
                 (rows (after [Add "2024-01-01" 50 "Food" "" "Cash"])))
    by (simpl; left; reflexivity).
  split; [exact H|].
  exact (ids_never_reused [Add "2024-01-01" 50 "Food" "" "Cash"] [Delete 1]
           _ "2024-01-02" 20 "Food" "" "Cash" H).
Defined.

(** ** Deleting *)

Lemma filter_all {A : Type} (p : A -> bool) (l : list A) :
  filter (fun x => negb (p x)) l = l <-> filter p l = [].
Proof.
  induction l as [|x l IH]; simpl; [tauto|].
  destruct (p x) eqn:E; simpl.
  - split; [|discriminate].
    intro H. exfalso.
    assert (Hin : In x (filter (fun y => negb (p y)) l))
      by (rewrite H; now left).
    apply filter_In in Hin. rewrite E in Hin. simpl in Hin.
    destruct Hin. discriminate.
  - rewrite <- IH. split; intro H.
    + exact (f_equal (@tl A) H).
    + now f_equal.
Qed.

Lemma delete_expense_true_iff (db : ExpenseDatabase) (i : Z) :
  fst (delete_expense db i) = true <-> In i (ids (rows db)).
Proof.
  simpl. split.
  - intro H. apply Nat.ltb_lt in H.
    destruct (filter (fun r => (expense_id r =? i)%Z) (rows db)) as [|r t] eqn:E;
      [simpl in H; lia|].
    assert (Hr : In r (filter (fun r => (expense_id r =? i)%Z) (rows db)))
      by (rewrite E; now left).
    apply filter_In in Hr. destruct Hr as [Hr Hi]. apply Z.eqb_eq in Hi.
    unfold ids. apply in_map_iff. now exists r.
  - intro H. unfold ids in H. apply in_map_iff in H. destruct H as [r [E Hr]].
    apply Nat.ltb_lt.
    assert (Hin : In r (filter (fun r => (expense_id r =? i)%Z) (rows db))).
    { apply filter_In. split; [exact Hr|]. now apply Z.eqb_eq. }
    destruct (filter (fun r => (expense_id r =? i)%Z) (rows db));
      [destruct Hin|simpl; lia].
Qed.

(** X4. [delete_expense] answers [True] exactly when a row has the id;
    afterwards no row has it and the other rows are all there, in the same
    order; when it answers [False] the database is as it was. *)
Theorem delete_expense_spec (db : ExpenseDatabase) (i : Z) :
  let res := delete_expense db i in
  (fst res = true <-> In i (ids (rows db))) /\
  ~ In i (ids (rows (snd res))) /\
  rows (snd res) = filter (fun r => negb (expense_id r =? i)%Z) (rows db) /\
  (forall r, In r (rows (snd res)) <-> In r (rows db) /\ expense_id r <> i) /\
  last_id (snd res) = last_id db /\
  (fst res = false -> snd res = db).
Proof.
  intro res. split; [apply delete_expense_true_iff|].
  unfold res. simpl. repeat split.
  - intro H. unfold ids in H. apply in_map_iff in H. destruct H as [r [E Hr]].
    apply filter_In in Hr. destruct Hr as [_ Hr].
    apply negb_true_iff, Z.eqb_neq in Hr. contradiction.
  - apply filter_In in H. tauto.
  - apply filter_In in H. destruct H as [_ H].
    now apply negb_true_iff, Z.eqb_neq in H.
  - intros [Hr Hi]. apply filter_In. split; [exact Hr|].
    now apply negb_true_iff, Z.eqb_neq.
  - intro H. apply Nat.ltb_ge in H.
    assert (E : filter (fun r => (expense_id r =? i)%Z) (rows db) = []).
    { destruct (filter (fun r => (expense_id r =? i)%Z) (rows db));
        [reflexivity|simpl in H; lia]. }
    apply (filter_all (fun r => (expense_id r =? i)%Z)) in E. rewrite E.
    now destruct db.
Qed.

(** X5. On a database whose ids are distinct, a deletion that answers
    [True] removes one row: the count goes down by exactly one. *)
Theorem delete_expense_count (db : ExpenseDatabase) (i : Z) :
  NoDup (ids (rows db)) ->
  fst (delete_expense db i) = true ->
  S (get_expense_count (snd (delete_expense db i))) = get_expense_count db.
Proof.
  intros Hnd H. apply delete_expense_true_iff in H.
  unfold get_expense_count. simpl. clear -Hnd H.
  induction (rows db) as [|r t IH]; simpl in *; [contradiction|].
  inversion Hnd as [|? ? Hr Ht]; subst.
  destruct (expense_id r =? i)%Z eqn:E; simpl.
  - apply Z.eqb_eq in E. subst. f_equal.
    replace (filter (fun r0 => negb (expense_id r0 =? expense_id r)%Z) t) with t;
      [reflexivity|].
    symmetry. apply forallb_filter_id. apply forallb_forall. intros x Hx.
    apply negb_true_iff, Z.eqb_neq. intro Heq. apply Hr.
    unfold ids. rewrite <- Heq. now apply in_map.
  - f_equal. apply IH; [exact Ht|].
    destruct H as [H|H]; [|exact H]. apply Z.eqb_neq in E. contradiction.
Qed.

Lemma delete_expense_count_witness :
  NoDup (ids (rows (after [Add "2024-01-01" 50 "Food" "" "Cash"]))) /\
  fst (delete_expense (after [Add "2024-01-01" 50 "Food" "" "Cash"]) 1) = true /\
  S (get_expense_count
       (snd (delete_expense (after [Add "2024-01-01" 50 "Food" "" "Cash"]) 1)))
  = get_expense_count (after [Add "2024-01-01" 50 "Food" "" "Cash"]).
Proof.
  assert (Hnd : NoDup (ids (rows (after [Add "2024-01-01" 50 "Food" "" "Cash"]))))
    by (repeat constructor; simpl; tauto).
  split; [exact Hnd|]. split; [reflexivity|].
  exact (delete_expense_count _ 1 Hnd eq_refl).
Defined.

(** ** Queries *)

Lemma text_le_total (a b : string) : text_le a b = false -> text_le b a = true.
Proof.
  unfold text_le. rewrite (String.compare_antisym b a).
  destruct (String.compare a b); simpl; congruence.
Qed.

Lemma text_le_trans (a b c : string) :
  text_le a b = true -> text_le b c = true -> text_le a c = true.
Proof.
  unfold text_le.
  destruct (String.compare a b) eqn:E1; [| |discriminate];
    destruct (String.compare b c) eqn:E2; try discriminate; intros _ _.
  - apply string_compare_eq in E1, E2. subst.
    now rewrite (proj2 (string_compare_eq c c) eq_refl).
  - apply string_compare_eq in E1. subst. now rewrite E2.
  - apply string_compare_eq in E2. subst. now rewrite E1.
  - now rewrite (string_compare_trans a b c E1 E2).
Qed.

Lemma insert_by_date_perm (x : expense) (l : list expense) :
  Permutation (insert_by_date x l) (x :: l).
Proof.
  induction l as [|h t IH]; simpl; [reflexivity|].
  destruct (text_le (date h) (date x)); [reflexivity|].
  rewrite IH. apply perm_swap.
Qed.

Lemma order_by_date_desc_perm (t : list expense) :
  Permutation (order_by_date_desc t) t.
Proof.
  induction t as [|x t IH]; simpl; [constructor|].
  rewrite insert_by_date_perm. now constructor.
Qed.

Lemma insert_by_date_sorted (x : expense) (l : list expense) :
  StronglySorted date_descending l ->
  StronglySorted date_descending (insert_by_date x l).
Proof.
  induction 1 as [|h t Hs IH Hall]; simpl.
  - repeat constructor.
  - destruct (text_le (date h) (date x)) eqn:E.
    + constructor; [now constructor|].
      constructor; [exact E|].
      eapply Forall_impl; [|exact Hall].
      intros y Hy. unfold date_descending in *.
      now apply text_le_trans with (date h).
    + constructor; [exact IH|].
      eapply Permutation_Forall; [symmetry; apply insert_by_date_perm|].
      constructor; [|exact Hall].
      unfold date_descending. now apply text_le_total.
Qed.

Lemma order_by_date_desc_sorted (t : list expense) :
  StronglySorted date_descending (order_by_date_desc t).
Proof.
  induction t as [|x t IH]; simpl; [constructor|].
  now apply insert_by_date_sorted.
Qed.

Lemma filter_perm {A : Type} (p : A -> bool) (l l' : list A) :
  Permutation l l' -> Permutation (filter p l) (filter p l').
Proof.
  induction 1 as [|x l l' H IH|x y l|l l' l'' H1 IH1 H2 IH2]; simpl.
  - constructor.
  - destruct (p x); [now constructor|exact IH].
  - destruct (p x), (p y); try reflexivity. apply perm_swap.
  - now transitivity (filter p l').
Qed.

(** X6. [get_all_expenses] returns every row of the table once, from the
    latest date to the earliest (dates compared as text), and as many rows
    as [get_expense_count] counts. *)
Theorem get_all_expenses_spec (db : ExpenseDatabase) :
  Permutation (get_all_expenses db) (rows db) /\
  StronglySorted date_descending (get_all_expenses db) /\
  List.length (get_all_expenses db) = get_expense_count db.
Proof.
  split; [apply order_by_date_desc_perm|].
  split; [apply order_by_date_desc_sorted|].
  apply Permutation_length, order_by_date_desc_perm.
Qed.

(** X7. [get_expenses_by_category] returns the rows whose category is
    exactly the one asked for, each once: the rows of that category in
    [get_all_expenses]; they come from the latest date to the earliest. *)
Theorem get_expenses_by_category_spec (db : ExpenseDatabase) (c : string) :
  Permutation (get_expenses_by_category db c)
              (in_category c (get_all_expenses db)) /\
  (forall r, In r (get_expenses_by_category db c) <->
             In r (rows db) /\ category r = c) /\
  StronglySorted date_descending (get_expenses_by_category db c).
Proof.
  unfold get_expenses_by_category, get_all_expenses, in_category.
  split; [|split].
  - rewrite order_by_date_desc_perm.
    apply filter_perm. symmetry. apply order_by_date_desc_perm.
  - intro r. split; intro H.
    + apply (Permutation_in _ (order_by_date_desc_perm _)) in H.
      apply filter_In in H. destruct H as [H1 H2].
      split; [exact H1|now apply String.eqb_eq].
    + apply (Permutation_in _ (Permutation_sym (order_by_date_desc_perm _))).
      apply filter_In. destruct H as [H1 H2].
      split; [exact H1|now apply String.eqb_eq].
  - apply order_by_date_desc_sorted.
Qed.

Lemma date_range_In (db : ExpenseDatabase) (start_date end_date : string) (r : expense) :
  In r (get_expenses_by_date_range db start_date end_date) <->
  In r (rows db) /\
  text_le start_date (date r) = true /\
  text_le (date r) end_date = true.
Proof.
  unfold get_expenses_by_date_range. split; intro H.
  - apply (Permutation_in _ (order_by_date_desc_perm _)) in H.
    apply filter_In in H. destruct H as [H1 H2].
    apply andb_true_iff in H2. tauto.
  - apply (Permutation_in _ (Permutation_sym (order_by_date_desc_perm _))).
    apply filter_In. destruct H as [H1 H2].
    split; [exact H1|now apply andb_true_iff].
Qed.

(** X8. [get_expenses_by_date_range] returns the rows whose date is
    between the two bounds, bounds included, dates compared as text, from
    the latest to the earliest; when the start is after the end it returns
    no row. *)
Theorem get_expenses_by_date_range_spec (db : ExpenseDatabase)
    (start_date end_date : string) :
  (forall r, In r (get_expenses_by_date_range db start_date end_date) <->
             In r (rows db) /\
             text_le start_date (date r) = true /\
             text_le (date r) end_date = true) /\
  StronglySorted date_descending (get_expenses_by_date_range db start_date end_date) /\
  (text_le start_date end_date = false ->
   get_expenses_by_date_range db start_date end_date = []).
Proof.
  split; [|split].
  - intro r. apply date_range_In.
  - apply order_by_date_desc_sorted.
  - unfold get_expenses_by_date_range. intro H.
    replace (filter (fun r => between (date r) start_date end_date) (rows db))
      with (@nil expense); [reflexivity|].
    symmetry. induction (rows db) as [|r t IH]; simpl; [reflexivity|].
    rewrite IH. unfold between.
    destruct (text_le start_date (date r)) eqn:E1; [|reflexivity].
    destruct (text_le (date r) end_date) eqn:E2; [|reflexivity].
    rewrite (text_le_trans _ _ _ E1 E2) in H. discriminate.
Qed.

(** * The analyses on the database *)

Lemma snapshot_empty_iff (db : ExpenseDatabase) :
  empty (get_all_expenses db) = true <-> get_expense_count db = 0%nat.
Proof.
  unfold get_expense_count.
  rewrite <- (Permutation_length (order_by_date_desc_perm (rows db))).
  fold (get_all_expenses db).
  destruct (get_all_expenses db); simpl; split; congruence.
Qed.

(** X9. When [get_expense_count] is positive, as [display_menu] and
    [show_dashboard] check before they read the results, the summary, the
    two groupings, the percentages and the top five are all there (none is
    [None]); the summary counts as many expenses as [get_expense_count],
    and the top five holds five rows or all of them. *)
Theorem dashboard_has_data (db : ExpenseDatabase) :
  (0 < get_expense_count db)%nat ->
  let df := get_all_expenses db in
  exists s cats pcts pays top,
    get_spending_summary df = Returned (Some s) /\
    total_expenses s = get_expense_count db /\
    spending_by_category df = Returned (Some cats) /\
    category_percentage df = Returned (Some pcts) /\
    spending_by_payment_method df = Returned (Some pays) /\
    top_expenses 5 df = Returned (Some top) /\
    List.length top = Nat.min 5 (get_expense_count db).
Proof.
  intros Hc df.
  assert (He : empty df = false).
  { destruct (empty df) eqn:E; [|reflexivity].
    apply snapshot_empty_iff in E. lia. }
  assert (Hlen : List.length df = get_expense_count db)
    by apply Permutation_length, order_by_date_desc_perm.
  unfold get_spending_summary, spending_by_category, category_percentage,
    spending_by_payment_method, top_expenses. rewrite He.
  destruct df as [|r rest] eqn:Edf; [discriminate|].
  do 5 eexists. repeat split; try reflexivity.
  - simpl. exact Hlen.
  - rewrite length_map. rewrite (nlargest_length amount 5) by lia.
    now rewrite Hlen.
Qed.

Lemma dashboard_has_data_witness :
  (0 < get_expense_count (after [Add "2024-01-01" 50 "Food" "" "Cash"]))%nat /\
  exists s,
    get_spending_summary (get_all_expenses (after [Add "2024-01-01" 50 "Food" "" "Cash"]))
      = Returned (Some s) /\
    total_expenses s = 1%nat.
Proof.
  assert (H : (0 < get_expense_count (after [Add "2024-01-01" 50 "Food" "" "Cash"]))%nat)
    by (vm_compute; lia).
  split; [exact H|].
  destruct (dashboard_has_data _ H) as [s [cats [pcts [pays [top [Hs [Hn _]]]]]]].
  exists s. split; [exact Hs|exact Hn].
Defined.

(** ** Category sums *)






(** X11. The counts of [spending_by_category] add up to the number of
    records of the snapshot. *)
Theorem category_counts_total (df : DataFrame) (rows : list (string * category_row)) :
  spending_by_category df = Returned (Some rows) ->
  list_sum (map (fun kr => Count (snd kr)) rows) = List.length df.
Proof.
  intro H. unfold spending_by_category in H.
  destruct (empty df); [discriminate|]. inversion H; subst. clear H.
  set (grouped := map (fun kg => (fst kg, agg_sum_count_mean (snd kg)))
                      (groupby String.compare category df)).
  rewrite (Permutation_list_sum
             (Permutation_map (fun kr => Count (snd kr))
                (sort_values_desc_perm (fun kr => Total (snd kr)) grouped))).
  unfold grouped. rewrite map_map. simpl.
  pose proof (groupby_partition String.compare string_compare_eq
                String.compare_antisym string_compare_trans category df) as Hp.
  rewrite <- (count_of_groups _ _ Hp). rewrite map_map.
  f_equal. apply map_ext. intro kg.
  unfold Series.count, amounts. now rewrite length_map.
Qed.

Lemma category_counts_total_witness :
  exists rows,
    spending_by_category scenario = Returned (Some rows) /\
    list_sum (map (fun kr => Count (snd kr)) rows) = List.length scenario.
Proof.
  eexists.
  assert (H : spending_by_category scenario
              = Returned (Some [ ("Food", mkCategoryRow (round2 200) 2 (round2 100));
                                 ("Transport", mkCategoryRow (round2 20) 1 (round2 20)) ]))
    by (vm_compute; reflexivity).
  split; [exact H|]. exact (category_counts_total scenario _ H).
Defined.

(** ** Rounding *)







(** ** Spending by payment method *)




(** ** The first three insights *)

Lemma unique_In (x : string) (s : list string) : In x (unique s) <-> In x s.
Proof.
  induction s as [|y s IH]; simpl; [tauto|].
  rewrite filter_In, IH, negb_true_iff, String.eqb_neq.
  destruct (String.eqb_spec x y) as [->|Hne]; [tauto|].
  split; [tauto|]. intros [H|H]; [now subst|tauto].
Qed.

Lemma sorted_head_largest {A : Type} (by_ : A -> Q) (h : A) (t : list A) :
  StronglySorted (descending by_) (h :: t) ->
  Forall (fun x => by_ x <= by_ h) (h :: t).
Proof.
  intro H. apply StronglySorted_inv in H. destruct H as [_ H].
  constructor; [apply Qle_refl|exact H].
Qed.

(** X14. On a column that is not empty, the value that heads
    [value_counts], which the first and third insights print, is a value of
    the column, and no value of the column occurs more often. *)
Theorem most_frequent_spec (s : list string) :
  empty s = false ->
  In (most_frequent s) s /\
  forall v, (occurrences v s <= occurrences (most_frequent s) s)%nat.
Proof.
  intro He. unfold most_frequent, value_counts.
  set (cnt := fun kc : string * nat => inject_Z (Z.of_nat (snd kc))).
  set (counted := map (fun k => (k, List.length (filter (String.eqb k) s))) (unique s)).
  pose proof (sort_values_desc_sorted cnt counted) as Hs.
  assert (Hin : forall kc, In kc (sort_values_desc cnt counted) ->
                In (fst kc) s /\ snd kc = occurrences (fst kc) s).
  { intros kc H. apply sort_values_desc_In in H. unfold counted in H.
    apply in_map_iff in H. destruct H as [k [<- Hk]]. simpl.
    split; [now apply unique_In|reflexivity]. }
  destruct (sort_values_desc cnt counted) as [|kc rest] eqn:E.
  { exfalso. destruct s as [|x s]; [discriminate|].
    assert (H : In (x, occurrences x (x :: s)) (sort_values_desc cnt counted)).
    { apply sort_values_desc_In. unfold counted. apply in_map_iff.
      exists x. split; [reflexivity|]. apply unique_In. now left. }
    rewrite E in H. destruct H. }
  destruct (Hin kc (or_introl eq_refl)) as [Hk Hc].
  split; [exact Hk|]. intro v.
  destruct (in_dec string_dec v s) as [Hv|Hv].
  - assert (H : In (v, occurrences v s) (kc :: rest)).
    { rewrite <- E. apply sort_values_desc_In. unfold counted.
      apply in_map_iff. exists v. split; [reflexivity|]. now apply unique_In. }
    apply sorted_head_largest in Hs. rewrite Forall_forall in Hs.
    specialize (Hs _ H). unfold cnt in Hs. simpl in Hs.
    rewrite <- Zle_Qle in Hs. rewrite Hc in Hs. lia.
  - assert (H0 : occurrences v s = 0%nat); [|lia].
    unfold occurrences.
    destruct (filter (String.eqb v) s) as [|y t] eqn:Ef; [reflexivity|].
    exfalso. assert (Hy : In y (filter (String.eqb v) s)) by (rewrite Ef; now left).
    apply filter_In in Hy. destruct Hy as [Hy1 Hy2].
    apply String.eqb_eq in Hy2. now subst.
Qed.

Lemma most_frequent_spec_witness :
  empty (map category scenario) = false /\
  In (most_frequent (map category scenario)) (map category scenario) /\
  (occurrences "Transport" (map category scenario)
   <= occurrences (most_frequent (map category scenario)) (map category scenario))%nat.
Proof.
  split; [reflexivity|].
  destruct (most_frequent_spec (map category scenario) eq_refl) as [H1 H2].
  split; [exact H1|apply H2].
Defined.




(** ** The buckets of the monthly trend *)

Lemma NoDup_constant {A : Type} (k : A) (l : list A) :
  NoDup l -> (forall x, In x l -> x = k) -> (List.length l <= 1)%nat.
Proof.
  intros Hnd Hk. destruct l as [|a [|b t]]; simpl; try lia.
  exfalso. inversion Hnd as [|? ? Ha _]; subst. apply Ha.
  rewrite (Hk a), (Hk b); simpl; auto.
Qed.

(** X17. On a snapshot that is not empty and whose dates are calendar
    dates, [monthly_spending_trend] returns at least one bucket, so
    [show_dashboard] always prints the trend; it returns exactly one bucket
    when all dates fall in one month of one year. *)
Theorem monthly_trend_has_bucket (df : DataFrame) :
  empty df = false ->
  parseable df = true ->
  exists buckets,
    monthly_spending_trend df = Returned (Some buckets) /\
    empty buckets = false /\
    ((forall r1 r2 t1 t2,
        In r1 df -> In r2 df ->
        parse_date (date r1) = Some t1 -> parse_date (date r2) = Some t2 ->
        year t1 = year t2 /\ month t1 = month t2) ->
     List.length buckets = 1%nat).
Proof.
  intros He Hp.
  destruct (to_datetime_parseable df Hp) as [dts [Edts Hdts]].
  eexists. split; [unfold monthly_spending_trend; rewrite He, Edts; reflexivity|].
  set (key := fun row : Timestamp * expense => to_period (fst row)).
  set (keys := group_keys Z.compare (map key (dated dts df))).
  assert (Hlen : forall B (f : Period * list (Timestamp * expense) -> B),
            List.length (map f (monthly_groups (dated dts df))) = List.length keys).
  { intros B f. unfold monthly_groups, groupby. now rewrite !length_map. }
  assert (Hrow : exists row, In row (dated dts df)).
  { destruct Hdts as [|t r dts df H _]; [discriminate|].
    exists (t, r). now left. }
  destruct Hrow as [row Hrow].
  assert (Hk : In (key row) keys).
  { apply (group_keys_In Z.compare Z_compare_eq). now apply in_map. }
  split.
  - destruct (map _ (monthly_groups (dated dts df))) eqn:E; [|reflexivity].
    exfalso. pose proof (Hlen _ (fun kg => (fst kg, agg_monthly (snd kg)))) as H.
    rewrite E in H. destruct keys; [destruct Hk|discriminate].
  - intro Hsame. rewrite Hlen.
    assert (Hle : (List.length keys <= 1)%nat).
    { apply (NoDup_constant (key row)).
      - apply (group_keys_NoDup Z.compare Z_compare_eq Z_compare_antisym
                 Z_compare_trans).
      - intros k Hin. unfold keys in Hin.
        pose proof (proj1 (group_keys_In Z.compare Z_compare_eq k _) Hin) as Hin'.
        apply in_map_iff in Hin'. destruct Hin' as [row' [<- Hrow']].
        pose proof (dated_months dts df Hdts) as Hm.
        rewrite Forall_forall in Hm.
        destruct (Hm row Hrow) as [E1 _]. destruct (Hm row' Hrow') as [E2 _].
        assert (H1 : In (snd row) df)
          by (rewrite <- (dated_snd dts df Hdts); now apply in_map).
        assert (H2 : In (snd row') df)
          by (rewrite <- (dated_snd dts df Hdts); now apply in_map).
        destruct (Hsame _ _ _ _ H2 H1 E2 E1) as [Ey Em].
        unfold key, to_period. now rewrite Ey, Em. }
    destruct keys; [destruct Hk|simpl in *; lia].
Qed.

Lemma monthly_trend_has_bucket_witness :
  empty four_amounts = false /\
  parseable four_amounts = true /\
  exists buckets,
    monthly_spending_trend four_amounts = Returned (Some buckets) /\
    List.length buckets = 1%nat.
Proof.
  split; [reflexivity|]. split; [reflexivity|].
  destruct (monthly_trend_has_bucket four_amounts eq_refl eq_refl)
    as [buckets [E [_ H]]].
  exists buckets. split; [exact E|]. apply H.
  intros r1 r2 t1 t2 H1 H2 E1 E2. simpl in H1, H2.
  repeat (destruct H1 as [<-|H1]); repeat (destruct H2 as [<-|H2]);
    try contradiction;
    vm_compute in E1, E2; inversion E1; inversion E2; split; reflexivity.
Defined.

(** ** More on the top expenses and on large purchases *)

(** X18. When [n] is at least the number of records of a snapshot that is
    not empty, [top_expenses] returns all of them, by descending amount. *)
Theorem top_expenses_all (n : Z) (df : DataFrame) :
  empty df = false ->
  (Z.of_nat (List.length df) <= n)%Z ->
  exists sel,
    top_expenses n df = Returned (Some (map project sel)) /\
    Permutation sel df /\
    StronglySorted (descending amount) sel.
Proof.
  intros He Hn. exists (sort_values_desc amount df).
  split; [|split].
  - unfold top_expenses, nlargest. rewrite He.
    destruct (n <=? 0)%Z eqn:E.
    + destruct df; [discriminate|]. simpl List.length in Hn. lia.
    + rewrite firstn_all2; [reflexivity|].
      rewrite sort_values_desc_length. lia.
  - apply sort_values_desc_perm.
  - apply sort_values_desc_sorted.
Qed.

Lemma top_expenses_all_witness :
  empty scenario = false /\
  (Z.of_nat (List.length scenario) <= 5)%Z /\
  exists sel,
    top_expenses 5 scenario = Returned (Some (map project sel)) /\
    Permutation sel scenario.
Proof.
  assert (H : (Z.of_nat (List.length scenario) <= 5)%Z) by (simpl; lia).
  split; [reflexivity|]. split; [exact H|].
  destruct (top_expenses_all 5 scenario eq_refl H) as [sel [E [Hp _]]].
  exists sel. split; assumption.
Defined.




(** * Dates as text and as days *)

(** ** Ordinals follow the calendar *)

Lemma days_in_month_bounds (y m : Z) : (28 <= days_in_month y m <= 31)%Z.
Proof.
  unfold days_in_month.
  destruct (m =? 2)%Z; [destruct (is_leap y); lia|].
  destruct ((m =? 4) || (m =? 6) || (m =? 9) || (m =? 11))%Z; lia.
Qed.

Lemma days_before_month_nat_mono (y : Z) (k k' : nat) :
  (k <= k')%nat -> (days_before_month_nat y k <= days_before_month_nat y k')%Z.
Proof.
  induction 1 as [|k' Hk IH]; [lia|].
  cbn [days_before_month_nat].
  pose proof (days_in_month_bounds y (Z.of_nat (S k'))). lia.
Qed.

Lemma days_before_next_month (y m : Z) :
  (1 <= m)%Z ->
  days_before_month_nat y (S (Z.to_nat (m - 1)))
  = (days_before_month y m + days_in_month y m)%Z.
Proof.
  intro Hm. unfold days_before_month. cbn [days_before_month_nat].
  do 2 f_equal. lia.
Qed.

(** A year has 365 days, 366 when it is leap. *)
Lemma days_of_year (y : Z) :
  days_before_month_nat y 12 = (if is_leap y then 366 else 365)%Z.
Proof.
  unfold days_before_month_nat, days_in_month. simpl.
  destruct (is_leap y); reflexivity.
Qed.

Lemma days_before_next_year (y : Z) :
  days_before_year (y + 1) = (days_before_year y + (if is_leap y then 366 else 365))%Z.
Proof.
  unfold days_before_year, is_leap.
  replace (y + 1 - 1)%Z with y by lia.
  destruct (Z.eqb_spec (y mod 4) 0), (Z.eqb_spec (y mod 100) 0),
    (Z.eqb_spec (y mod 400) 0); simpl; Z.div_mod_to_equations; lia.
Qed.

Lemma days_before_year_mono (y y' : Z) :
  (y <= y')%Z -> (days_before_year y <= days_before_year y')%Z.
Proof.
  intro H. unfold days_before_year. Z.div_mod_to_equations. lia.
Qed.

(** The ordinal grows with the date. *)
Lemma toordinal_before (a b : Timestamp) :
  valid_date (year a) (month a) (day a) = true ->
  valid_date (year b) (month b) (day b) = true ->
  date_before a b -> (toordinal a < toordinal b)%Z.
Proof.
  unfold valid_date. intros Ha Hb.
  repeat (apply andb_prop in Ha; destruct Ha as [Ha ?]).
  repeat (apply andb_prop in Hb; destruct Hb as [Hb ?]).
  assert (Hda : (days_before_month (year a) (month a) + day a
                 <= days_before_month_nat (year a) (S (Z.to_nat (month a - 1))))%Z).
  { rewrite days_before_next_month by lia. lia. }
  assert (Hnonneg : (0 <= days_before_month (year b) (month b))%Z).
  { unfold days_before_month.
    apply (days_before_month_nat_mono (year b) 0). lia. }
  unfold toordinal. intros [Hy|[[Hy Hm]|[Hy [Hm Hd]]]].
  - assert (Hyear : (days_before_month_nat (year a) (S (Z.to_nat (month a - 1)))
                     <= days_before_month_nat (year a) 12)%Z).
    { apply days_before_month_nat_mono. lia. }
    rewrite days_of_year in Hyear.
    pose proof (days_before_next_year (year a)) as Hnext.
    pose proof (days_before_year_mono (year a + 1) (year b)) as Hmono.
    lia.
  - rewrite Hy in *.
    assert (Hmono : (days_before_month_nat (year b) (S (Z.to_nat (month a - 1)))
                     <= days_before_month (year b) (month b))%Z).
    { unfold days_before_month. apply days_before_month_nat_mono. lia. }
    lia.
  - rewrite Hy, Hm. lia.
Qed.

Lemma valid_dates_equal (a b : Timestamp) :
  year a = year b -> month a = month b -> day a = day b -> a = b.
Proof. destruct a, b. simpl. congruence. Qed.

(** For two calendar dates, earlier or equal is smaller or equal ordinal. *)
Lemma toordinal_order (a b : Timestamp) :
  valid_date (year a) (month a) (day a) = true ->
  valid_date (year b) (month b) (day b) = true ->
  (date_before a b \/ a = b) <-> (toordinal a <= toordinal b)%Z.
Proof.
  intros Ha Hb. split.
  - intros [H| ->]; [|lia]. pose proof (toordinal_before a b Ha Hb H). lia.
  - intro Hle.
    assert (Hcases : date_before a b \/ a = b \/ date_before b a).
    { destruct (Z.eq_dec (year a) (year b)) as [Ey|Ny];
        [destruct (Z.eq_dec (month a) (month b)) as [Em|Nm];
         [destruct (Z.eq_dec (day a) (day b)) as [Ed|Nd]|]|].
      - right. left. now apply valid_dates_equal.
      - unfold date_before. lia.
      - unfold date_before. lia.
      - unfold date_before. lia. }
    destruct Hcases as [H|[H|H]]; [now left|now right|].
    pose proof (toordinal_before b a Hb Ha H). lia.
Qed.

(** ** The text of a date orders like the date *)

Lemma digit_range (c : ascii) (a : Z) : digit c = Some a -> (0 <= a <= 9)%Z.
Proof.
  unfold digit.
  destruct ((48 <=? nat_of_ascii c) && (nat_of_ascii c <=? 57))%nat eqn:E;
    [|discriminate].
  intro H. inversion H; subst. clear H.
  apply andb_prop in E. destruct E as [E1 E2].
  apply Nat.leb_le in E1, E2. lia.
Qed.

Lemma digit_compare (c c' : ascii) (a a' : Z) :
  digit c = Some a -> digit c' = Some a' ->
  Ascii.compare c c' = Z.compare a a'.
Proof.
  unfold digit, Ascii.compare.
  rewrite Nnat.N2Nat.inj_compare.
  change (N.to_nat (N_of_ascii c)) with (nat_of_ascii c).
  change (N.to_nat (N_of_ascii c')) with (nat_of_ascii c').
  destruct ((48 <=? nat_of_ascii c) && (nat_of_ascii c <=? 57))%nat eqn:E;
    [|discriminate].
  destruct ((48 <=? nat_of_ascii c') && (nat_of_ascii c' <=? 57))%nat eqn:E';
    [|discriminate].
  intros H H'. inversion H; inversion H'; subst. clear H H'.
  apply andb_prop in E, E'. destruct E as [E1 _], E' as [E1' _].
  apply Nat.leb_le in E1, E1'.
  rewrite Nat2Z.inj_compare.
  destruct (Nat.compare_spec (nat_of_ascii c) (nat_of_ascii c'));
    destruct (Nat.compare_spec (nat_of_ascii c - 48) (nat_of_ascii c' - 48));
    try reflexivity; lia.
Qed.

Lemma dash_compare (c c' : ascii) :
  is_dash c = true -> is_dash c' = true -> Ascii.compare c c' = Eq.
Proof.
  unfold is_dash, Ascii.compare. intros H H'.
  apply Nat.eqb_eq in H, H'.
  rewrite Nnat.N2Nat.inj_compare.
  change (N.to_nat (N_of_ascii c)) with (nat_of_ascii c).
  change (N.to_nat (N_of_ascii c')) with (nat_of_ascii c').
  rewrite H, H'. reflexivity.
Qed.

(** What [parse_date] reads is the text of the date it returns. *)
Lemma parse_date_iso (s : string) (t : Timestamp) :
  parse_date s = Some t -> iso_text s t.
Proof.
  unfold parse_date. rewrite <- (string_of_list_ascii_of_string s) at 2.
  destruct (list_ascii_of_string s) as [|y1 [|y2 [|y3 [|y4 [|s1 [|m1 [|m2
    [|s2 [|d1 [|d2 [|]]]]]]]]]]]; try discriminate.
  destruct (is_dash s1) eqn:Es1; [|discriminate].
  destruct (is_dash s2) eqn:Es2; [|discriminate].
  cbn [andb number].
  destruct (digit y1) as [a1|] eqn:E1; [|discriminate].
  destruct (digit y2) as [a2|] eqn:E2; [|discriminate].
  destruct (digit y3) as [a3|] eqn:E3; [|discriminate].
  destruct (digit y4) as [a4|] eqn:E4; [|discriminate].
  destruct (digit m1) as [b1|] eqn:E5; [|discriminate].
  destruct (digit m2) as [b2|] eqn:E6; [|discriminate].
  destruct (digit d1) as [c1|] eqn:E7; [|discriminate].
  destruct (digit d2) as [c2|] eqn:E8; [|discriminate].
  match goal with |- context [valid_date ?y ?m ?d] =>
    destruct (valid_date y m d); [|discriminate] end.
  intro H. inversion H; subst. clear H.
  cbn [string_of_list_ascii]. now constructor.
Qed.

Ltac compare_digits :=
  repeat match goal with
  | Ha : digit ?c = Some ?a, Hb : digit ?c' = Some ?b
    |- context [Ascii.compare ?c ?c'] =>
      rewrite (digit_compare c c' a b Ha Hb)
  | Ha : is_dash ?c = true, Hb : is_dash ?c' = true
    |- context [Ascii.compare ?c ?c'] =>
      rewrite (dash_compare c c' Ha Hb)
  end.

Ltac digit_ranges :=
  repeat match goal with
  | H : digit ?c = Some ?a |- _ =>
      pose proof (digit_range c a H); clear H
  end.

Ltac split_comparisons :=
  repeat match goal with
  | |- context [match Z.compare ?x ?y with _ => _ end] =>
      destruct (Z.compare_spec x y); cbn iota
  end.

(** Two date texts compare as the dates they spell. *)
Lemma iso_text_order (a b : string) (ta tb : Timestamp) :
  iso_text a ta -> iso_text b tb ->
  (text_le a b = true <-> date_not_after ta tb).
Proof.
  intros Ha Hb. destruct Ha, Hb.
  unfold text_le, date_not_after. cbn [String.compare year month day].
  compare_digits. cbn iota. digit_ranges.
  split_comparisons; split; intro Hgoal; try reflexivity; try discriminate; lia.
Qed.

Lemma date_not_after_iff (a b : Timestamp) :
  date_not_after a b <-> date_before a b \/ a = b.
Proof.
  unfold date_not_after, date_before. split.
  - intro H. destruct (Z.eq_dec (day a) (day b)) as [Ed|Nd].
    + destruct (Z.eq_dec (month a) (month b)) as [Em|Nm].
      * destruct (Z.eq_dec (year a) (year b)) as [Ey|Ny].
        -- right. now apply valid_dates_equal.
        -- left. lia.
      * left. lia.
    + left. lia.
  - intros [H| ->]; lia.
Qed.

Lemma text_le_toordinal (a b : string) (ta tb : Timestamp) :
  parse_date a = Some ta ->
  parse_date b = Some tb ->
  (text_le a b = true <-> (toordinal ta <= toordinal tb)%Z).
Proof.
  intros Ha Hb.
  rewrite (iso_text_order a b ta tb (parse_date_iso a ta Ha) (parse_date_iso b tb Hb)).
  rewrite date_not_after_iff.
  apply toordinal_order; eapply parse_date_valid; eassumption.
Qed.

(** X20. For two dates that [parse_date] reads, the order of the texts, by
    which the database sorts and filters, is the order of the calendar:
    one text is at most the other exactly when its date is the same day or
    an earlier one. *)
Theorem iso_dates_order (a b : string) (ta tb : Timestamp) :
  parse_date a = Some ta ->
  parse_date b = Some tb ->
  (text_le a b = true <-> (toordinal ta <= toordinal tb)%Z).
Proof. exact (text_le_toordinal a b ta tb). Qed.

Lemma iso_dates_order_witness :
  parse_date "2024-01-05" = Some (mkTimestamp 2024 1 5) /\
  parse_date "2024-02-01" = Some (mkTimestamp 2024 2 1) /\
  (text_le "2024-01-05" "2024-02-01" = true <->
   (toordinal (mkTimestamp 2024 1 5) <= toordinal (mkTimestamp 2024 2 1))%Z).
Proof.
  split; [reflexivity|]. split; [reflexivity|].
  exact (iso_dates_order "2024-01-05" "2024-02-01" _ _ eq_refl eq_refl).
Defined.

(** X21. [get_all_expenses] lists the rows from the newest calendar date to
    the oldest: of two rows whose dates [parse_date] reads, the one listed
    first is not the older. *)
Theorem get_all_expenses_newest_first (db : ExpenseDatabase) :
  StronglySorted newest_first (get_all_expenses db).
Proof.
  pose proof (order_by_date_desc_sorted (rows db)) as H.
  unfold get_all_expenses.
  induction H as [|r t Hs IH Hall]; constructor; [exact IH|].
  eapply Forall_impl; [|exact Hall].
  intros r' Hr' t1 t2 E1 E2. unfold date_descending in Hr'.
  apply (text_le_toordinal (date r') (date r) t2 t1 E2 E1). exact Hr'.
Qed.

(** X22. With bounds that are calendar dates, [get_expenses_by_date_range]
    returns a row whose date is a calendar date exactly when that day is
    neither before the start nor after the end. *)
Theorem date_range_is_calendar (db : ExpenseDatabase) (start_date end_date : string)
    (ts te tr : Timestamp) (r : expense) :
  parse_date start_date = Some ts ->
  parse_date end_date = Some te ->
  parse_date (date r) = Some tr ->
  (In r (get_expenses_by_date_range db start_date end_date) <->
   In r (rows db) /\ (toordinal ts <= toordinal tr <= toordinal te)%Z).
Proof.
  intros Hs He Hr. rewrite date_range_In.
  rewrite (text_le_toordinal _ _ _ _ Hs Hr), (text_le_toordinal _ _ _ _ Hr He).
  tauto.
Qed.

Lemma date_range_is_calendar_witness :
  parse_date "2024-01-01" = Some (mkTimestamp 2024 1 1) /\
  parse_date "2024-01-31" = Some (mkTimestamp 2024 1 31) /\
  parse_date "2024-01-05" = Some (mkTimestamp 2024 1 5) /\
  In (mkExpense 1 "2024-01-05" 150 "Food" "" "Card")
     (get_expenses_by_date_range
        (after [Add "2024-01-05" 150 "Food" "" "Card"]) "2024-01-01" "2024-01-31").
Proof.
  split; [reflexivity|]. split; [reflexivity|]. split; [reflexivity|].
  apply (date_range_is_calendar (after [Add "2024-01-05" 150 "Food" "" "Card"])
           "2024-01-01" "2024-01-31" _ _ _
           (mkExpense 1 "2024-01-05" 150 "Food" "" "Card") eq_refl eq_refl eq_refl).
  split; [now left|]. vm_compute. split; discriminate.
Defined.

(** X23. When the interactive [delete_expense] finds the id among the rows
    it has read, the deletion that follows answers [True]: its failure
    message is never printed. *)
Theorem found_then_deleted (db : ExpenseDatabase) (i : Z) :
  empty (filter (fun r => (expense_id r =? i)%Z) (get_all_expenses db)) = false ->
  fst (delete_expense db i) = true.
Proof.
  intro H. apply delete_expense_true_iff.
  destruct (filter (fun r => (expense_id r =? i)%Z) (get_all_expenses db))
    as [|r t] eqn:E; [discriminate|].
  assert (Hr : In r (filter (fun r => (expense_id r =? i)%Z) (get_all_expenses db)))
    by (rewrite E; now left).
  apply filter_In in Hr. destruct Hr as [Hr Hi]. apply Z.eqb_eq in Hi.
  apply (Permutation_in _ (order_by_date_desc_perm _)) in Hr.
  unfold ids. apply in_map_iff. now exists r.
Qed.

Lemma found_then_deleted_witness :
  empty (filter (fun r => (expense_id r =? 1)%Z)
           (get_all_expenses (after [Add "2024-01-05" 150 "Food" "" "Card"]))) = false /\
  fst (delete_expense (after [Add "2024-01-05" 150 "Food" "" "Card"]) 1) = true.
Proof.
  split; [reflexivity|].
  exact (found_then_deleted (after [Add "2024-01-05" 150 "Food" "" "Card"]) 1 eq_refl).
Defined.

(** X24. On a snapshot that is not empty, the one row of [top_expenses(1)]
    carries the [largest_expense] of the summary. *)
Theorem top_one_is_largest (df : DataFrame) :
  empty df = false ->
  exists row s,
    top_expenses 1 df = Returned (Some [row]) /\
    get_spending_summary df = Returned (Some s) /\
    top_amount row == largest_expense s.
Proof.
  intro He. destruct df as [|r rest]; [discriminate|].
  pose proof (sort_values_desc_sorted amount (r :: rest)) as Hs.
  pose proof (sort_values_desc_perm amount (r :: rest)) as Hp.
  destruct (sort_values_desc amount (r :: rest)) as [|h t] eqn:E.
  { apply Permutation_nil in Hp. discriminate. }
  exists (project h). eexists.
  split; [|split; [reflexivity|]].
  - unfold top_expenses, nlargest. cbn [empty Z.leb Z.compare Z.to_nat Pos.to_nat
      Pos.iter_op Nat.add]. rewrite E. reflexivity.
  - cbn [largest_expense project top_amount].
    apply sorted_head_largest in Hs. rewrite Forall_forall in Hs.
    destruct (max_upper (amount r) (amounts rest)) as [Hu1 Hu2].
    destruct (max_attained (amount r) (amounts rest)) as [y [Hy Ey]].
    apply Qle_antisym.
    + assert (Hh : In h (r :: rest)) by (apply (Permutation_in _ Hp); now left).
      destruct Hh as [<-|Hh]; [exact Hu1|].
      rewrite Forall_forall in Hu2. apply Hu2. unfold amounts. now apply in_map.
    + rewrite Ey. change (amount r :: amounts rest) with (map amount (r :: rest)) in Hy.
      apply in_map_iff in Hy. destruct Hy as [e [<- He']].
      apply Hs. apply (Permutation_in _ (Permutation_sym Hp)). exact He'.
Qed.

Lemma top_one_is_largest_witness :
  empty scenario = false /\
  exists row s,
    top_expenses 1 scenario = Returned (Some [row]) /\
    get_spending_summary scenario = Returned (Some s) /\
    top_amount row == largest_expense s.
Proof.
  split; [reflexivity|]. exact (top_one_is_largest scenario eq_refl).
Defined.

(** * The interactive selection *)

Section SelectFromListFacts.

Context (int : string -> option Z).

Lemma select_loop_spec (items : list string) (stdin : list string) :
  match fst (fst (select_loop int items stdin)) with
  | Selected item =>
      exists rejected line choice,
        stdin = rejected ++ line :: snd (fst (select_loop int items stdin)) /\
        forallb (fun l => negb (accepted int items l)) rejected = true /\
        int line = Some choice /\
        (1 <= choice <= Z.of_nat (List.length items))%Z /\
        nth_error items (Z.to_nat (choice - 1)) = Some item
  | EOFError =>
      forallb (fun l => negb (accepted int items l)) stdin = true /\
      snd (fst (select_loop int items stdin)) = []
  | IndexError => False
  end.
Proof.
  induction stdin as [|line rest IH]; cbn [select_loop].
  - simpl. split; reflexivity.
  - destruct (int line) as [choice|] eqn:Ei.
    + destruct ((1 <=? choice) && (choice <=? Z.of_nat (List.length items)))%Z eqn:Er.
      * apply andb_prop in Er. destruct Er as [E1 E2].
        apply Z.leb_le in E1, E2.
        destruct (nth_error items (Z.to_nat (choice - 1))) as [item|] eqn:En.
        -- simpl. exists [], line, choice. repeat split; try assumption.
        -- simpl. apply nth_error_None in En. lia.
      * destruct (select_loop int items rest) as [[res unread] out].
        simpl in *. destruct res; [| |exact IH].
        -- destruct IH as [rejected [l [c [H1 [H2 H3]]]]].
           exists (line :: rejected), l, c. split; [now rewrite H1|].
           split; [|exact H3]. simpl. unfold accepted at 1. now rewrite Ei, Er, H2.
        -- destruct IH as [H1 H2]. split; [|exact H2].
           unfold accepted at 1. now rewrite Ei, Er, H1.
    + destruct (select_loop int items rest) as [[res unread] out].
      simpl in *. destruct res; [| |exact IH].
      * destruct IH as [rejected [l [c [H1 [H2 H3]]]]].
        exists (line :: rejected), l, c. split; [now rewrite H1|].
        split; [|exact H3]. simpl. unfold accepted at 1. now rewrite Ei, H2.
      * destruct IH as [H1 H2]. split; [|exact H2].
        unfold accepted at 1. now rewrite Ei, H1.
Qed.

Lemma select_from_list_result (items : list string) (prompt : string)
    (stdin : list string) :
  fst (select_from_list int items prompt stdin) = fst (select_loop int items stdin).
Proof.
  unfold select_from_list.
  now destruct (select_loop int items stdin) as [[res unread] out].
Qed.

(** X25. [select_from_list] never subscripts out of range.  When it
    returns, it returns an item of the list: the item numbered by the first
    line of input that reads as a number from 1 to the number of items; the
    lines before that one were all turned down and the lines after it are
    left unread.  Otherwise every line was turned down and the input is
    used up. *)
Theorem select_from_list_spec (items : list string) (prompt : string)
    (stdin : list string) :
  let res := fst (fst (select_from_list int items prompt stdin)) in
  let unread := snd (fst (select_from_list int items prompt stdin)) in
  match res with
  | Selected item =>
      In item items /\
      exists rejected line choice,
        stdin = rejected ++ line :: unread /\
        forallb (fun l => negb (accepted int items l)) rejected = true /\
        int line = Some choice /\
        (1 <= choice <= Z.of_nat (List.length items))%Z /\
        nth_error items (Z.to_nat (choice - 1)) = Some item
  | EOFError =>
      forallb (fun l => negb (accepted int items l)) stdin = true /\ unread = []
  | IndexError => False
  end.
Proof.
  cbv zeta. rewrite select_from_list_result.
  pose proof (select_loop_spec items stdin) as H.
  destruct (fst (fst (select_loop int items stdin))) as [item| |].
  - destruct H as [rejected [line [choice [H1 [H2 [H3 [H4 Hn]]]]]]].
    split; [eapply nth_error_In; exact Hn|].
    exists rejected, line, choice. repeat split; try assumption; lia.
  - exact H.
  - exact H.
Qed.

End SelectFromListFacts.

(** A category chosen with [select_from_list] among [CATEGORIES] is one of
    the seven categories, whatever is typed. *)
Theorem selected_category_is_listed (int : string -> option Z)
    (prompt : string) (stdin : list string) (item : string) :
  fst (fst (select_from_list int CATEGORIES prompt stdin)) = Selected item ->
  In item CATEGORIES.
Proof.
  intro H. rewrite select_from_list_result in H.
  pose proof (select_loop_spec int CATEGORIES stdin) as Hs.
  rewrite H in Hs. destruct Hs as [rejected [line [choice [_ [_ [_ [_ Hn]]]]]]].
  eapply nth_error_In; exact Hn.
Qed.

Lemma selected_category_is_listed_witness :
  fst (fst (select_from_list decimal CATEGORIES "Select category:" ["x"; "9"; "3"; "1"]))
    = Selected "Shopping" /\
  In "Shopping" CATEGORIES.
Proof.
  assert (H : fst (fst (select_from_list decimal CATEGORIES "Select category:"
                          ["x"; "9"; "3"; "1"])) = Selected "Shopping")
    by reflexivity.
  split; [exact H|].
  exact (selected_category_is_listed decimal "Select category:" _ _ H).
Defined.
